(** * BehaviorMetrics: the pilot loop and the CARLA controller

    A shallow embedding of [behavior_metrics/pilot.py] (class [Pilot]: the
    fixed-period loop of [run], and the commands [stop], [play], [kill]) and
    of the frame store of [behavior_metrics/utils/CARLAController.py]
    ([update_frame], [get_data]).

    Conventions of the embedding.
    - Python floats (durations, clock readings) are exact rationals [Qc]:
      the properties below are about control flow and about which samples
      enter which quotient, not about rounding.
    - A Python exception is a value of [Exn]; a statement that can raise is
      a computation in the monad [Py], which threads the mutable state and
      keeps the mutations made before the exception was raised.
    - An attribute that an object may lack is an [option]: [None] is the
      attribute being absent (or the object being Python's [None]).
    - What other threads and external collaborators do (the brain's
      [execute], ROS clock messages, the wall clock, the metrics sink) is
      an explicit input of the step that observes it. *)

From stdpp Require Import base option list strings gmap numbers.
From Stdlib Require Import QArith Qcanon.

Local Open Scope Z_scope.

(** ** Python primitives *)

Module Py.

(** The exceptions the code meets. [OtherError] stands for any other
    subclass of [Exception]; [SystemExit] stands for the exceptions that
    derive from [BaseException] and not from [Exception] ([SystemExit],
    [KeyboardInterrupt], [GeneratorExit]). *)
Inductive Exn : Type :=
| AttributeError
| ZeroDivisionError
| TypeError
| IndexError
| RuntimeError
| OtherError
| SystemExit.

Global Instance Exn_eq_dec : EqDecision Exn.
Proof. solve_decision. Defined.

Inductive Res (A : Type) : Type :=
| Ok (a : A)
| Raise (e : Exn).
Global Arguments Ok {A} a.
Global Arguments Raise {A} e.

(** A statement over a mutable state [S]. *)
Definition M (S A : Type) : Type := S → Res A * S.

Definition ret {S A} (a : A) : M S A := λ s, (Ok a, s).

Definition bind {S A B} (m : M S A) (k : A → M S B) : M S B :=
  λ s, match m s with
       | (Ok a, s') => k a s'
       | (Raise e, s') => (Raise e, s')
       end.

Definition raise {S A} (e : Exn) : M S A := λ s, (Raise e, s).

(** [x ← m; k] and [m;; k] are stdpp's notations for [bind]. *)
Global Instance M_bind {S} : MBind (M S) := λ A B k m, bind m k.
Global Instance M_ret {S} : MRet (M S) := λ A a, ret a.

Definition get {S} : M S S := λ s, (Ok s, s).
Definition gets {S A} (f : S → A) : M S A := λ s, (Ok (f s), s).
Definition modify {S} (f : S → S) : M S unit := λ s, (Ok tt, f s).

(** [try: body except (those of [catches]) as e: handler e]. *)
Definition try_except {S A} (body : M S A) (catches : Exn → bool)
    (handler : Exn → M S A) : M S A :=
  λ s, match body s with
       | (Ok a, s') => (Ok a, s')
       | (Raise e, s') => if catches e then handler e s' else (Raise e, s')
       end.

(** [except Exception] catches the subclasses of [Exception]: every
    exception of the model but [SystemExit]. *)
Definition Exception (e : Exn) : bool :=
  match e with
  | SystemExit => false
  | _ => true
  end.

(** [except E] catches [E]. *)
Definition only (e0 e : Exn) : bool :=
  match e0, e with
  | AttributeError, AttributeError
  | ZeroDivisionError, ZeroDivisionError
  | TypeError, TypeError
  | IndexError, IndexError
  | RuntimeError, RuntimeError
  | OtherError, OtherError
  | SystemExit, SystemExit => true
  | _, _ => false
  end.

(** [when c: body]. *)
Definition when {S} (c : bool) (body : M S unit) : M S unit :=
  if c then body else ret tt.

(** Numbers. *)
Definition of_nat (n : nat) : Qc := Qc_of_Z (Z.of_nat n).

Definition is_zero (x : Qc) : bool := (Qnum (this x) =? 0)%Z.

(** An expression that may raise and leaves the state alone. *)
Definition eval {S A} (r : Res A) : M S A := λ s, (r, s).

(** [x / y]: true division, [ZeroDivisionError] on a zero divisor. *)
Definition div (x y : Qc) : Res Qc :=
  if is_zero y then Raise ZeroDivisionError else Ok (x / y)%Qc.

(** [sum(l)]: left to right from 0. *)
Definition sum (l : list Qc) : Qc := foldl Qcplus 0%Qc l.

(** [x < y] *)
Definition lt (x y : Qc) : bool :=
  match (this x ?= this y)%Q with Lt => true | _ => false end.

(** [len(l)] as a number. *)
Definition len {A} (l : list A) : Qc := of_nat (length l).

(** [a - b] on clock readings, either of which may be [None]. *)
Definition sub (a b : option Qc) : Res Qc :=
  match a, b with
  | Some x, Some y => Ok (x - y)%Qc
  | _, _ => Raise TypeError
  end.

(** Slice bounds: a negative index counts from the end, and both ends
    are clipped to the list. *)
Definition clip (n i : Z) : Z :=
  if i <? 0 then Z.max 0 (i + n) else Z.min i n.

(** [l[start:stop]]. *)
Definition slice {A} (start stop : Z) (l : list A) : list A :=
  let n := Z.of_nat (length l) in
  let lo := clip n start in
  let hi := clip n stop in
  take (Z.to_nat (hi - lo)) (drop (Z.to_nat lo) l).

(** [l[i]], with [IndexError] out of range. *)
Definition index {A} (l : list A) (i : Z) : Res A :=
  let n := Z.of_nat (length l) in
  let j := if i <? 0 then i + n else i in
  if (j <? 0) || (n <=? j) then Raise IndexError
  else match l !! Z.to_nat j with
       | Some a => Ok a
       | None => Raise IndexError
       end.

(** [s.split(sep)] for a one-character separator. *)
Fixpoint split_acc (sep : Ascii.ascii) (acc : string) (s : string) : list string :=
  match s with
  | EmptyString => [String.rev acc]
  | String c s' =>
      if Ascii.eqb c sep then String.rev acc :: split_acc sep EmptyString s'
      else split_acc sep (String c acc) s'
  end.
Definition split (sep : Ascii.ascii) (s : string) : list string :=
  split_acc sep EmptyString s.

End Py.

(** ** [utils/CARLAController.py]: the frame store *)

Module CARLAController.

Section Store.
(** What a frame shows (image data, laser data, ...). A Python value
    handed to [update_frame] is such a datum or [None]. *)
Context {Data : Type}.

Definition PyVal : Type := option Data.

(** [self.data], the dict from frame identifiers to the data to show.
    The two methods take [self.__data_loc] around their access to it;
    a sequence of calls finds the lock free each time. *)
Record t : Type := mk { data : gmap string PyVal }.

(** [__init__]: [self.data = {}]. *)
Definition init : t := mk ∅.

(** [self.data[frame_id] = data] *)
Definition update_frame (frame_id : string) (d : PyVal) (c : t) : t :=
  mk (<[frame_id := d]> (data c)).

(** [data = self.data.get(frame_id, None); return data] *)
Definition get_data (frame_id : string) (c : t) : PyVal :=
  default None (data c !! frame_id).

(** A sequence of [update_frame] calls, first call first. *)
Definition updates (us : list (string * PyVal)) (c : t) : t :=
  foldl (λ c u, update_frame u.1 u.2 c) c us.

(** The datum of the last call in [us] that wrote [frame_id]. *)
Fixpoint last_write (frame_id : string) (us : list (string * PyVal))
    : option PyVal :=
  match us with
  | [] => None
  | (f, d) :: us' =>
      match last_write frame_id us' with
      | Some d' => Some d'
      | None => if decide (f = frame_id) then Some d else None
      end
  end.
End Store.
Global Arguments t : clear implicits.
Global Arguments PyVal : clear implicits.

End CARLAController.

(** ** [pilot.py]: the data of the pilot and of its loop *)

Module Pilot.
Import Py.

(** [TIME_CYCLE = 50] (milliseconds) *)
Definition TIME_CYCLE : Qc := Qc_of_Z 50.

(** *** External collaborators, as far as the pilot looks at them *)

(** An image handed over by the brain; the pilot only passes it on. *)
Definition Image : Type := nat.

(** The active brain. [inference_times], [gpu_inference] and
    [first_image] are attributes only some brains have. *)
Record Brain : Type := {
  inference_times : option (list Qc);
  gpu_inference : option bool;
  first_image : option (option Image)
}.

(** [brains.brains_handler.Brains]: [active_brain] is [None] while no
    brain is loaded. *)
Record Brains : Type := { active_brain : option Brain }.

(** [robot.actuators.Actuators] and [robot.sensors.Sensors]: whether
    [kill()] was called on them, and the pose the sensors report. *)
Record Actuators : Type := { actuators_killed : bool }.
Record Sensors : Type := { sensors_killed : bool; pose3d_0 : Qc * Qc }.

(** [threading.Thread]: not started, running [run], or over ([run]
    returned, or an exception ended it). *)
Inductive Thread : Type :=
| NotStarted
| Alive
| Finished (uncaught : option Exn).

Global Instance Thread_eq_dec : EqDecision Thread.
Proof. solve_decision. Defined.

(** *** What the loop writes out *)

Inductive Msg : Type :=
| No_Brain_selected
| Mean_network_inference_time (s : Qc)
| Frame_rate (fps : Qc)
| No_inference_brain
| Mean_brain_iteration_time (s : Qc)
| Mean_ROS_iteration_time (s : Qc)
| Has_experiment_metrics_filename (b : bool)
| Saving_metrics_to_ROS_bag
| Empty_ROS_bag
| Pilot_killed.

Inductive Event : Type :=
| Info (m : Msg)                      (* logger.info *)
| Warning (m : Msg)                   (* logger.warning *)
| Error (e : Exn)                     (* logger.error(e) *)
| Sleep (seconds : Qc)                (* time.sleep *)
| Subscribe                           (* rospy.Subscriber("/clock", ...) *)
| Unregister                          (* clock_subscriber.unregister() *)
| SaveMetrics (mean_iteration_time mean_inference_time frame_rate : Qc)
    (gpu_inference : bool) (first_image : option Image).
                                      (* self.controller.save_metrics(...) *)

(** *** The state *)

(** The attributes of [self] the modelled methods use. *)
Record Self : Type := {
  stop_event : bool;
  kill_event : bool;
  thread : Thread;
  robot_type : string;
  sensors : option Sensors;
  actuators : option Actuators;
  brains : option Brains;
  start_pose : Qc * Qc;
  execution_completed : bool
}.

(** The local variables of [run] that live across iterations. *)
Record Locals : Type := {
  it : nat;
  stopped_brain_metrics : bool;
  successful_iteration : bool;
  brain_iterations_time : list Qc;
  ros_iterations_time : list Qc
}.

(** The pilot, the module's global [clock_time], the frame of [run]
    and what has been written out, oldest first. *)
Record World : Type := {
  self : Self;
  clock_time : option Qc;
  frame : Locals;
  out : list Event
}.

Definition set_stop_event (v : bool) (r : Self) : Self :=
  {| stop_event := v; kill_event := kill_event r; thread := thread r; robot_type := robot_type r; sensors := sensors r; actuators := actuators r; brains := brains r; start_pose := start_pose r; execution_completed := execution_completed r |}.
Definition set_kill_event (v : bool) (r : Self) : Self :=
  {| stop_event := stop_event r; kill_event := v; thread := thread r; robot_type := robot_type r; sensors := sensors r; actuators := actuators r; brains := brains r; start_pose := start_pose r; execution_completed := execution_completed r |}.
Definition set_thread (v : Thread) (r : Self) : Self :=
  {| stop_event := stop_event r; kill_event := kill_event r; thread := v; robot_type := robot_type r; sensors := sensors r; actuators := actuators r; brains := brains r; start_pose := start_pose r; execution_completed := execution_completed r |}.
Definition set_robot_type (v : string) (r : Self) : Self :=
  {| stop_event := stop_event r; kill_event := kill_event r; thread := thread r; robot_type := v; sensors := sensors r; actuators := actuators r; brains := brains r; start_pose := start_pose r; execution_completed := execution_completed r |}.
Definition set_sensors (v : option Sensors) (r : Self) : Self :=
  {| stop_event := stop_event r; kill_event := kill_event r; thread := thread r; robot_type := robot_type r; sensors := v; actuators := actuators r; brains := brains r; start_pose := start_pose r; execution_completed := execution_completed r |}.
Definition set_actuators (v : option Actuators) (r : Self) : Self :=
  {| stop_event := stop_event r; kill_event := kill_event r; thread := thread r; robot_type := robot_type r; sensors := sensors r; actuators := v; brains := brains r; start_pose := start_pose r; execution_completed := execution_completed r |}.
Definition set_brains (v : option Brains) (r : Self) : Self :=
  {| stop_event := stop_event r; kill_event := kill_event r; thread := thread r; robot_type := robot_type r; sensors := sensors r; actuators := actuators r; brains := v; start_pose := start_pose r; execution_completed := execution_completed r |}.
Definition set_start_pose (v : Qc * Qc) (r : Self) : Self :=
  {| stop_event := stop_event r; kill_event := kill_event r; thread := thread r; robot_type := robot_type r; sensors := sensors r; actuators := actuators r; brains := brains r; start_pose := v; execution_completed := execution_completed r |}.
Definition set_execution_completed (v : bool) (r : Self) : Self :=
  {| stop_event := stop_event r; kill_event := kill_event r; thread := thread r; robot_type := robot_type r; sensors := sensors r; actuators := actuators r; brains := brains r; start_pose := start_pose r; execution_completed := v |}.

Definition set_it (v : nat) (r : Locals) : Locals :=
  {| it := v; stopped_brain_metrics := stopped_brain_metrics r; successful_iteration := successful_iteration r; brain_iterations_time := brain_iterations_time r; ros_iterations_time := ros_iterations_time r |}.
Definition set_stopped_brain_metrics (v : bool) (r : Locals) : Locals :=
  {| it := it r; stopped_brain_metrics := v; successful_iteration := successful_iteration r; brain_iterations_time := brain_iterations_time r; ros_iterations_time := ros_iterations_time r |}.
Definition set_successful_iteration (v : bool) (r : Locals) : Locals :=
  {| it := it r; stopped_brain_metrics := stopped_brain_metrics r; successful_iteration := v; brain_iterations_time := brain_iterations_time r; ros_iterations_time := ros_iterations_time r |}.
Definition set_brain_iterations_time (v : list Qc) (r : Locals) : Locals :=
  {| it := it r; stopped_brain_metrics := stopped_brain_metrics r; successful_iteration := successful_iteration r; brain_iterations_time := v; ros_iterations_time := ros_iterations_time r |}.
Definition set_ros_iterations_time (v : list Qc) (r : Locals) : Locals :=
  {| it := it r; stopped_brain_metrics := stopped_brain_metrics r; successful_iteration := successful_iteration r; brain_iterations_time := brain_iterations_time r; ros_iterations_time := v |}.

Definition with_self (f : Self → Self) (w : World) : World :=
  {| self := f (self w); clock_time := clock_time w; frame := frame w;
     out := out w |}.
Definition with_frame (f : Locals → Locals) (w : World) : World :=
  {| self := self w; clock_time := clock_time w; frame := f (frame w);
     out := out w |}.
Definition set_clock_time (v : option Qc) (w : World) : World :=
  {| self := self w; clock_time := v; frame := frame w; out := out w |}.
Definition emit (e : Event) (w : World) : World :=
  {| self := self w; clock_time := clock_time w; frame := frame w;
     out := out w ++ [e] |}.

(** Statements on the world. *)
Definition assign_self (f : Self → Self) : M World unit :=
  modify (with_self f).
Definition assign (f : Locals → Locals) : M World unit :=
  modify (with_frame f).
Definition read_self {A} (f : Self → A) : M World A := gets (λ w, f (self w)).
Definition read {A} (f : Locals → A) : M World A := gets (λ w, f (frame w)).
Definition write (e : Event) : M World unit := modify (emit e).

(** [x.a] where [x] may be [None] or lack [a]. *)
Definition attr {A} (x : option A) : M World A :=
  match x with
  | Some a => mret a
  | None => raise AttributeError
  end.

(** *** The module's clock subscription *)

(** [clock_callback]: [clock_time = clock_data.clock.to_sec()] *)
Definition clock_callback (clock_data : Qc) : M World unit :=
  modify (set_clock_time (Some clock_data)).

Fixpoint clock_callbacks (msgs : list Qc) : M World unit :=
  match msgs with
  | [] => mret tt
  | m :: msgs' => clock_callback m;; clock_callbacks msgs'
  end.

(** *** Construction *)

(** What the constructors of the collaborators return. *)
Record InitEnv : Type := {
  built_brains : Brains;        (* Brains(...) *)
  sensors_pose : Qc * Qc;       (* the pose Sensors(...) reports *)
  brain_pose : Qc * Qc          (* active_brain.getPose3d() *)
}.

(** [__wait_gazebo]: [self.stop_event.set()] *)
Definition wait_gazebo : M World unit :=
  assign_self (set_stop_event true).

(** [stop_interfaces] *)
Definition stop_interfaces : M World unit :=
  s ← read_self sensors;
  match s with
  | Some s =>
      assign_self (set_sensors
        (Some {| sensors_killed := true; pose3d_0 := pose3d_0 s |}))
  | None => mret tt
  end;;
  a ← read_self actuators;
  match a with
  | Some _ => assign_self (set_actuators (Some {| actuators_killed := true |}))
  | None => mret tt
  end.

(** [initialize_robot]; both branches on [experiment_model] build a
    [Brains], with different arguments. *)
Definition initialize_robot (env : InitEnv) : M World unit :=
  stop_interfaces;;
  rt ← read_self robot_type;
  when (negb (String.eqb rt "drone"))
    (assign_self (set_actuators (Some {| actuators_killed := false |}));;
     assign_self (set_sensors
       (Some {| sensors_killed := false; pose3d_0 := sensors_pose env |})));;
  assign_self (set_brains (Some (built_brains env)));;
  wait_gazebo.

(** The object before [__init__] has assigned anything. *)
Definition blank : World :=
  {| self := {| stop_event := false; kill_event := false;
                thread := NotStarted; robot_type := EmptyString;
                sensors := None; actuators := None; brains := None;
                start_pose := (0%Qc, 0%Qc);
                execution_completed := false |};
     clock_time := None;
     frame := {| it := 0%nat; stopped_brain_metrics := false;
                 successful_iteration := false;
                 brain_iterations_time := []; ros_iterations_time := [] |};
     out := [] |}.

Definition slash : Ascii.ascii := Ascii.ascii_of_nat 47.

(** [__init__]; [robot_type] is [brain_path.split("/")[-2]]. *)
Definition init (brain_path : string) (env : InitEnv) : M World unit :=
  rt ← eval (index (split slash brain_path) (-2));
  assign_self (set_robot_type rt);;
  assign_self (set_sensors None);;
  assign_self (set_actuators None);;
  assign_self (set_brains None);;
  initialize_robot env;;
  (if String.eqb rt "drone" then
     bs ← read_self brains;
     bs ← attr bs;
     _ ← attr (active_brain bs);
     assign_self (set_start_pose (brain_pose env))
   else
     s ← read_self sensors;
     s ← attr s;
     assign_self (set_start_pose (pose3d_0 s)));;
  assign_self (set_execution_completed false).

(** [Pilot(configuration, controller, brain_path)] *)
Definition new (brain_path : string) (env : InitEnv) : Res unit * World :=
  init brain_path env blank.

(** *** The commands *)

(** [threading.Thread.is_alive] *)
Definition is_alive (s : Self) : bool :=
  match thread s with Alive => true | _ => false end.

(** [threading.Thread.start]: a thread is started once; from then on
    [run] is running, with its locals initialised and the clock
    subscribed (lines 132-138). *)
Definition start : M World unit :=
  th ← read_self thread;
  match th with
  | NotStarted =>
      assign_self (set_thread Alive);;
      write Subscribe;;
      assign (λ _, {| it := 0%nat; stopped_brain_metrics := false;
                      successful_iteration := false;
                      brain_iterations_time := [];
                      ros_iterations_time := [] |})
  | _ => raise RuntimeError
  end.

(** [stop] *)
Definition stop : M World unit :=
  assign_self (set_stop_event true).

(** [play] *)
Definition play : M World unit :=
  alive ← read_self is_alive;
  if (alive : bool) then assign_self (set_stop_event false)
  else start.

(** [kill] *)
Definition kill : M World unit :=
  a ← read_self actuators;
  _ ← attr a;
  assign_self (set_actuators (Some {| actuators_killed := true |}));;
  assign_self (set_kill_event true).

(** *** The loop of [run] *)

(** What [self.brains.active_brain.execute()] does when it is called on
    a loaded brain: it returns, leaving the brain in a new state, or it
    raises. *)
Inductive ExecOutcome : Type :=
| Returns (after : Brain)
| Raises (e : Exn).

(** What one iteration observes of the world around it. *)
Record TickEnv : Type := {
  execute_outcome : ExecOutcome;
  clock_msgs : list Qc;       (* /clock messages handled during the iteration *)
  ms_before_sleep : Qc;       (* [ms] of line 191 *)
  elapsed_lt_1 : bool;        (* [elapsed < 1] of line 193 *)
  ms_after_sleep : Qc;        (* [ms] of line 202 *)
  has_metrics_filename : bool;
               (* hasattr(self.controller, 'experiment_metrics_filename') *)
  save_metrics_outcome : option Exn
               (* what self.controller.save_metrics(...) raises, if it does *)
}.

(** [self.brains.active_brain] *)
Definition the_active_brain : M World Brain :=
  bs ← read_self brains;
  bs ← attr bs;
  attr (active_brain bs).

(** [self.brains.active_brain.execute()] *)
Definition execute (o : ExecOutcome) : M World unit :=
  _ ← the_active_brain;
  match o with
  | Returns b' => assign_self (set_brains (Some {| active_brain := Some b' |}))
  | Raises e => raise e
  end.

(** [self.brains.active_brain.inference_times = v] *)
Definition assign_inference_times (v : list Qc) : M World unit :=
  b ← the_active_brain;
  assign_self (set_brains (Some {| active_brain := Some
    {| inference_times := Some v; gpu_inference := gpu_inference b;
       first_image := first_image b |} |})).

(** The four values the [try] of lines 157-173 leaves in
    [mean_inference_time], [frame_rate], [gpu_inference], [first_image]. *)
Record Inference : Type := {
  inf_mean_inference_time : Qc;
  inf_frame_rate : Qc;
  inf_gpu_inference : bool;
  inf_first_image : option Image
}.

(** Lines 157-173. *)
Definition inference_statistics : M World Inference :=
  try_except
    (b ← the_active_brain;
     ts ← attr (inference_times b);
     assign_inference_times (slice 10 (-10) ts);;
     b ← the_active_brain;
     ts ← attr (inference_times b);
     mean_inference_time ← eval (div (sum ts) (len ts));
     frame_rate ← eval (div (len ts) (sum ts));
     gpu ← attr (gpu_inference b);
     first ← attr (first_image b);
     write (Info (Mean_network_inference_time mean_inference_time));;
     write (Info (Frame_rate frame_rate));;
     mret {| inf_mean_inference_time := mean_inference_time;
             inf_frame_rate := frame_rate;
             inf_gpu_inference := gpu;
             inf_first_image := first |})
    Exception
    (λ e,
     write (Error e);;
     write (Info No_inference_brain);;
     mret {| inf_mean_inference_time := 0%Qc;
             inf_frame_rate := 0%Qc;
             inf_gpu_inference := false;
             inf_first_image := None |}).

(** The summary of a run segment: the locals of lines 159-176. *)
Record MetricsSummary : Type := {
  mean_iteration_time : Qc;
  mean_ros_iteration_time : Qc;
  mean_inference_time : Qc;
  frame_rate : Qc;
  used_gpu_inference : bool;
  first_output : option Image
}.

(** Lines 157-176: the inference statistics, then the two iteration
    means. *)
Definition summarize : M World MetricsSummary :=
  inf ← inference_statistics;
  bit ← read brain_iterations_time;
  mean_it ← eval (div (sum bit) (len bit));
  rit ← read ros_iterations_time;
  mean_ros ← eval (div (sum rit) (len rit));
  mret {| mean_iteration_time := mean_it;
          mean_ros_iteration_time := mean_ros;
          mean_inference_time := inf_mean_inference_time inf;
          frame_rate := inf_frame_rate inf;
          used_gpu_inference := inf_gpu_inference inf;
          first_output := inf_first_image inf |}.

(** Lines 177-187: the report and the hand-over to the controller. *)
Definition deliver (env : TickEnv) (m : MetricsSummary) : M World unit :=
  write (Info (Mean_brain_iteration_time (mean_iteration_time m)));;
  write (Info (Mean_ROS_iteration_time (mean_ros_iteration_time m)));;
  write (Info (Has_experiment_metrics_filename (has_metrics_filename env)));;
  when (has_metrics_filename env)
    (try_except
       (write (Info Saving_metrics_to_ROS_bag);;
        write (SaveMetrics (mean_iteration_time m) (mean_inference_time m)
                 (frame_rate m) (used_gpu_inference m) (first_output m));;
        match save_metrics_outcome env with
        | Some e => raise e
        | None => mret tt
        end)
       Exception
       (λ e, write (Info Empty_ROS_bag);; write (Error e))).

(** Lines 143-151: the branch taken while the stop event is clear. *)
Definition running_branch (env : TickEnv) : M World unit :=
  assign_self (set_execution_completed false);;
  assign (set_stopped_brain_metrics true);;
  try_except
    (execute (execute_outcome env);;
     assign (set_successful_iteration true))
    (only AttributeError)
    (λ e,
     write (Warning No_Brain_selected);;
     write (Error e);;
     assign (set_successful_iteration false)).

(** Lines 153-189: the branch taken while the stop event is set. *)
Definition stopped_branch (env : TickEnv) : M World unit :=
  sbm ← read stopped_brain_metrics;
  when sbm
    (assign_self (set_execution_completed false);;
     assign (set_stopped_brain_metrics false);;
     assign (set_successful_iteration false);;
     m ← summarize;
     deliver env m;;
     assign (set_brain_iterations_time []);;
     assign_self (set_execution_completed true)).

(** Lines 190-200: the iteration counter and the sleep that fills the
    period. *)
Definition pace (env : TickEnv) : M World unit :=
  (if elapsed_lt_1 env then
     n ← read it; assign (set_it (S n))
   else assign (set_it 0%nat));;
  when (lt (ms_before_sleep env) TIME_CYCLE)
    (write (Sleep ((TIME_CYCLE - ms_before_sleep env) / Qc_of_Z 1000)%Qc)).

(** Lines 201-205: the two samples of a successful iteration. *)
Definition record_sample (env : TickEnv) (start_time_ros : option Qc)
    : M World unit :=
  ok ← read successful_iteration;
  when ok
    (now ← gets clock_time;
     d ← eval (sub now start_time_ros);
     rit ← read ros_iterations_time;
     assign (set_ros_iterations_time (rit ++ [d]));;
     bit ← read brain_iterations_time;
     assign (set_brain_iterations_time
               (bit ++ [(ms_after_sleep env / Qc_of_Z 1000)%Qc]))).

(** Lines 140-205: the body of the [while]. The clock messages of the
    iteration arrive after [start_time_ros] was read and before
    [clock_time] is read again. *)
Definition iteration (env : TickEnv) : M World unit :=
  start_time_ros ← gets clock_time;
  clock_callbacks (clock_msgs env);;
  stopped ← read_self stop_event;
  (if (stopped : bool) then stopped_branch env else running_branch env);;
  pace env;;
  record_sample env start_time_ros.

(** One turn of [while not self.kill_event.is_set()] on the loop
    thread: the loop ends on a set kill event (lines 206-207), and an
    exception that leaves the body ends the thread. A thread that is
    not running does nothing. *)
Definition tick (env : TickEnv) (w : World) : World :=
  match thread (self w) with
  | Alive =>
      if kill_event (self w) then
        with_self (set_thread (Finished None))
          (emit (Info Pilot_killed) (emit Unregister w))
      else
        match iteration env w with
        | (Ok _, w') => w'
        | (Raise e, w') => with_self (set_thread (Finished (Some e))) w'
        end
  | _ => w
  end.

(** *** A run of the system *)

(** What happens, one after the other: a turn of the loop, a command of
    the controller's thread, or a clock message between two turns. *)
Inductive Action : Type :=
| Tick (env : TickEnv)
| Play
| Stop
| Kill
| Clock (t : Qc).

(** A command that raises does so in its caller; what it changed before
    stays changed. *)
Definition step (a : Action) (w : World) : World :=
  match a with
  | Tick env => tick env w
  | Play => (play w).2
  | Stop => (stop w).2
  | Kill => (kill w).2
  | Clock t => (clock_callback t w).2
  end.

Definition run (acts : list Action) (w : World) : World :=
  foldl (λ w a, step a w) w acts.

(** *** Notions the properties are stated with *)

(** The loop state a command leaves behind. *)
Inductive LoopState : Type := RUNNING | PAUSED | KILLED.

Definition loop_state (s : Self) : LoopState :=
  if kill_event s then KILLED
  else if stop_event s then PAUSED else RUNNING.

(** What a turn of the loop that starts in [w] finds: nothing when the
    thread is not running. *)
Definition observe (w : World) : option LoopState :=
  if is_alive (self w) then Some (loop_state (self w)) else None.

(** What the turns of the loop found during a run, oldest first. *)
Fixpoint observations (acts : list Action) (w : World) : list LoopState :=
  match acts with
  | [] => []
  | a :: acts' =>
      match a with
      | Tick _ => match observe w with Some o => [o] | None => [] end
      | _ => []
      end ++ observations acts' (step a w)
  end.

Definition is_running (o : LoopState) : bool :=
  match o with RUNNING => true | _ => false end.
Definition is_paused (o : LoopState) : bool :=
  match o with PAUSED => true | _ => false end.
Definition is_paused_or_killed (o : LoopState) : bool :=
  match o with RUNNING => false | _ => true end.

(** The number of turns that found a state of [to] right after a turn
    that found RUNNING; [prev] tells whether the turn before the first
    one found RUNNING. *)
Fixpoint transitions (to : LoopState → bool) (prev : bool)
    (obs : list LoopState) : nat :=
  match obs with
  | [] => 0%nat
  | o :: obs' =>
      ((if prev && to o then 1 else 0) + transitions to (is_running o) obs')%nat
  end.

(** A summary is produced when line 178 reports it. *)
Definition is_summary (e : Event) : bool :=
  match e with
  | Info (Mean_ROS_iteration_time _) => true
  | _ => false
  end.
Fixpoint summaries (es : list Event) : nat :=
  match es with
  | [] => 0%nat
  | e :: es' => ((if is_summary e then 1 else 0) + summaries es')%nat
  end.

(** The brain's inference sample set, as the summarization finds it. *)
Definition inference_samples (s : Self) : option (list Qc) :=
  bs ← brains s; b ← active_brain bs; inference_times b.

(** The brain's [execute] signals that no decision is available: no
    brain is loaded, or its [execute] raises [AttributeError]. *)
Definition no_decision_available (env : TickEnv) (s : Self) : Prop :=
  brains s = None
  ∨ brains s = Some {| active_brain := None |}
  ∨ execute_outcome env = Raises AttributeError.

(** [stopped_brain_metrics] tells whether the last turn of the loop, if
    there was one, found RUNNING. *)
Definition tracks (prev : bool) (w : World) : Prop :=
  match thread (self w) with
  | NotStarted => prev = false
  | Alive => stopped_brain_metrics (frame w) = prev
  | Finished _ => True
  end.

(** No brain is loaded, and the loop has recorded nothing: the brains
    handler has no active brain, [brain_iterations_time] is empty and
    [successful_iteration] is clear. *)
Definition unloaded (w : World) : Prop :=
  brains (self w) = Some {| active_brain := None |}
  ∧ brain_iterations_time (frame w) = []
  ∧ successful_iteration (frame w) = false.

(** The fallback of lines 169-172. *)
Definition no_inference : Inference :=
  {| inf_mean_inference_time := 0%Qc;
     inf_frame_rate := 0%Qc;
     inf_gpu_inference := false;
     inf_first_image := None |}.

(** The exception of [save_metrics] that leaves the hand-over of lines
    180-187, if there is one: the controller has the attribute, the call
    raises, and [except Exception] does not catch what it raises. *)
Definition sink_escape (env : TickEnv) : option Exn :=
  if has_metrics_filename env then
    match save_metrics_outcome env with
    | Some e => if Exception e then None else Some e
    | None => None
    end
  else None.

(** [clock_time] after the clock messages [msgs]. *)
Definition clock_after (msgs : list Qc) (c : option Qc) : option Qc :=
  foldl (λ _ m, Some m) c msgs.

End Pilot.

(** ** Concrete scenarios *)

Module Scenario.
Import Py Pilot.

Definition q (n : Z) : Qc := Qc_of_Z n.

(** A brain with 25 inference samples: 1, 2, ..., 25. *)
Definition brain25 : Brain :=
  {| inference_times := Some (q <$> seqZ 1 25);
     gpu_inference := Some true;
     first_image := Some (Some 7%nat) |}.

(** A brain with 20 inference samples. *)
Definition brain20 : Brain :=
  {| inference_times := Some (q <$> seqZ 1 20);
     gpu_inference := Some true;
     first_image := Some None |}.

Definition collaborators : InitEnv :=
  {| built_brains := {| active_brain := Some brain25 |};
     sensors_pose := (q 1, q 2);
     brain_pose := (q 3, q 4) |}.

(** A car and a drone, as constructed. *)
Definition car : World := (new "brains/f1/brain.py" collaborators).2.
Definition drone : World := (new "brains/drone/brain.py" collaborators).2.

(** An iteration whose [execute] returns, and one whose [execute] finds
    no decision; the clock ticks once during each. *)
Definition decided (t : Z) : TickEnv :=
  {| execute_outcome := Returns brain25;
     clock_msgs := [q t];
     ms_before_sleep := q 10;
     elapsed_lt_1 := true;
     ms_after_sleep := q 50;
     has_metrics_filename := true;
     save_metrics_outcome := Some TypeError |}.
Definition undecided (t : Z) : TickEnv :=
  {| execute_outcome := Raises AttributeError;
     clock_msgs := [q t];
     ms_before_sleep := q 10;
     elapsed_lt_1 := true;
     ms_after_sleep := q 50;
     has_metrics_filename := false;
     save_metrics_outcome := None |}.
(** An iteration during which no clock message arrives. *)
Definition decided_without_clock : TickEnv :=
  {| execute_outcome := Returns brain25;
     clock_msgs := [];
     ms_before_sleep := q 10;
     elapsed_lt_1 := true;
     ms_after_sleep := q 50;
     has_metrics_filename := false;
     save_metrics_outcome := None |}.

(** The car is started, resumed and given a clock reading. *)
Definition resumed : World := run [Play; Play; Clock (q 0)] car.

End Scenario.

(** ** [utils/CARLAController.py]: the controller's handle on the pilot *)

Module Control.
Import Py Pilot.

(** What the controller logs. *)
Inductive Log : Type :=
| Restarting_simulation
| Pausing_simulation
| Resuming_simulation
| Reloading_brain (brain : string)
| Recording_bag_at (dataset_name : string)
| Rosbag_already_recording
| Stopping_bag_recording
| No_bag_recording.

(** The processes the recorder starts. *)
Inductive Command : Type :=
| Rosbag_record (dataset_name : string) (topics : list string)
| Rosnode_kill_behav_bag.

(** The attributes of the controller its pilot and recorder methods use.
    [pilot] is the pilot object itself, shared with the loop thread: it is
    absent until [set_pilot], which [Pilot.__init__] calls at line 68.
    [pilot_start_time] is the attribute [start_time] that [resume_pilot]
    puts on the pilot. [rosbag_proc] is absent until [record_rosbag]
    assigns it; a process object is true. *)
Record Controller : Type := {
  pilot : option World;
  pilot_start_time : option Qc;
  start_time : option Qc;
  recording : bool;
  rosbag_proc : option nat;
  spawned : list Command;
  log : list Log
}.

(** [__init__] *)
Definition init : Controller :=
  {| pilot := None; pilot_start_time := None; start_time := None;
     recording := false; rosbag_proc := None; spawned := []; log := [] |}.

Definition set_pilot_field (v : option World) (c : Controller) : Controller :=
  {| pilot := v; pilot_start_time := pilot_start_time c;
     start_time := start_time c; recording := recording c;
     rosbag_proc := rosbag_proc c; spawned := spawned c; log := log c |}.
Definition set_pilot_start_time (v : option Qc) (c : Controller) : Controller :=
  {| pilot := pilot c; pilot_start_time := v;
     start_time := start_time c; recording := recording c;
     rosbag_proc := rosbag_proc c; spawned := spawned c; log := log c |}.
Definition set_start_time (v : option Qc) (c : Controller) : Controller :=
  {| pilot := pilot c; pilot_start_time := pilot_start_time c;
     start_time := v; recording := recording c;
     rosbag_proc := rosbag_proc c; spawned := spawned c; log := log c |}.
Definition set_recording (v : bool) (c : Controller) : Controller :=
  {| pilot := pilot c; pilot_start_time := pilot_start_time c;
     start_time := start_time c; recording := v;
     rosbag_proc := rosbag_proc c; spawned := spawned c; log := log c |}.
Definition set_rosbag_proc (v : option nat) (c : Controller) : Controller :=
  {| pilot := pilot c; pilot_start_time := pilot_start_time c;
     start_time := start_time c; recording := recording c;
     rosbag_proc := v; spawned := spawned c; log := log c |}.
Definition spawn_command (cmd : Command) (c : Controller) : Controller :=
  {| pilot := pilot c; pilot_start_time := pilot_start_time c;
     start_time := start_time c; recording := recording c;
     rosbag_proc := rosbag_proc c; spawned := spawned c ++ [cmd];
     log := log c |}.
Definition add_log (l : Log) (c : Controller) : Controller :=
  {| pilot := pilot c; pilot_start_time := pilot_start_time c;
     start_time := start_time c; recording := recording c;
     rosbag_proc := rosbag_proc c; spawned := spawned c; log := log c ++ [l] |}.

(** [logger.info(...)] *)
Definition info (l : Log) : M Controller unit := modify (add_log l).

(** A statement on [self.pilot]: [AttributeError] while no pilot is
    registered. *)
Definition on_pilot {A} (m : M World A) : M Controller A :=
  λ c, match pilot c with
       | None => (Raise AttributeError, c)
       | Some w => let (r, w') := m w in (r, set_pilot_field (Some w') c)
       end.

(** [set_pilot] *)
Definition set_pilot (w : World) : M Controller unit :=
  modify (set_pilot_field (Some w)).

(** [Pilot(configuration, controller, brain_path)], seen from the
    controller: the pilot registers itself before anything of its
    constructor can raise, so the controller holds the object in whatever
    state the constructor leaves it. *)
Definition construct (brain_path : string) (env : InitEnv) : M Controller unit :=
  λ c, let (r, w) := new brain_path env in (r, set_pilot_field (Some w) c).

(** [stop_pilot]: [self.pilot.kill_event.set()] *)
Definition stop_pilot : M Controller unit :=
  on_pilot (assign_self (set_kill_event true)).

(** [pause_pilot]: [self.pilot.stop_event.set()] *)
Definition pause_pilot : M Controller unit :=
  on_pilot (assign_self (set_stop_event true)).

(** [resume_pilot]; [now] and [now'] are the two readings of
    [datetime.now()]. *)
Definition resume_pilot (now now' : Qc) : M Controller unit :=
  modify (set_start_time (Some now));;
  on_pilot (mret tt);;
  modify (set_pilot_start_time (Some now'));;
  on_pilot (assign_self (set_stop_event false)).

(** [reset_carla_simulation], [pause_carla_simulation],
    [unpause_carla_simulation] *)
Definition reset_carla_simulation : M Controller unit :=
  info Restarting_simulation.
Definition pause_carla_simulation : M Controller unit :=
  info Pausing_simulation;;
  on_pilot (assign_self (set_stop_event true)).
Definition unpause_carla_simulation : M Controller unit :=
  info Resuming_simulation;;
  on_pilot (assign_self (set_stop_event false)).

(** [Pilot.reload_brain]: [self.brains.load_brain(brain_path, model)];
    [after] is the state [load_brain] leaves the brains handler in. *)
Definition pilot_reload_brain (after : Brains) : M World unit :=
  bs ← read_self brains;
  _ ← attr bs;
  assign_self (set_brains (Some after)).

(** [reload_brain] *)
Definition reload_brain (brain : string) (after : Brains) : M Controller unit :=
  info (Reloading_brain brain);;
  pause_pilot;;
  on_pilot (pilot_reload_brain after).

(** [initialize_robot] *)
Definition initialize_robot (env : InitEnv) : M Controller unit :=
  pause_pilot;;
  on_pilot (Pilot.initialize_robot env).

(** A loop turn, a pilot command or a clock message, on the pilot the
    controller holds. *)
Definition pilot_step (a : Action) (c : Controller) : Controller :=
  match pilot c with
  | None => c
  | Some w => set_pilot_field (Some (step a w)) c
  end.

(** Opening the two log files and [subprocess.Popen(command, ...)]:
    [io] is the exception the operating system answers with, if any;
    otherwise the process is started and identified by [pid]. *)
Definition popen (cmd : Command) (io : option Exn) (pid : nat) : M Controller nat :=
  match io with
  | Some e => raise e
  | None => modify (spawn_command cmd);; mret pid
  end.

(** [stop_record] *)
Definition stop_record (io : option Exn) (pid : nat) : M Controller unit :=
  proc ← gets rosbag_proc;
  _ ← eval (match proc with
            | Some p => Ok p
            | None => Raise AttributeError
            end);
  rec ← gets recording;
  if (rec : bool) then
    info Stopping_bag_recording;;
    modify (set_recording false);;
    _ ← popen Rosnode_kill_behav_bag io pid;
    mret tt
  else info No_bag_recording.

(** [record_rosbag] *)
Definition record_rosbag (topics : list string) (dataset_name : string)
    (io : option Exn) (pid : nat) : M Controller unit :=
  rec ← gets recording;
  if negb rec then
    info (Recording_bag_at dataset_name);;
    modify (set_recording true);;
    p ← popen (Rosbag_record dataset_name topics) io pid;
    modify (set_rosbag_proc (Some p))
  else
    info Rosbag_already_recording;;
    stop_record io pid.

(** [n] calls of [record_rosbag] in a row that the operating system
    lets through; the processes are numbered as they are started. *)
Fixpoint record_rosbag_times (n : nat) (topics : list string)
    (dataset_name : string) : M Controller unit :=
  match n with
  | O => mret tt
  | S n' =>
      record_rosbag topics dataset_name None n';;
      record_rosbag_times n' topics dataset_name
  end.

(** The commands [n] such calls are to start: a recording, then the
    kill of its node, and so on. *)
Fixpoint toggled (n : nat) (topics : list string) (dataset_name : string)
    : list Command :=
  match n with
  | O => []
  | S O => [Rosbag_record dataset_name topics]
  | S (S n') =>
      Rosbag_record dataset_name topics :: Rosnode_kill_behav_bag
        :: toggled n' topics dataset_name
  end.

(** [def save_metrics(self)] takes no argument: a call that passes
    [nargs] arguments raises [TypeError] before the body runs; [body] is
    what the body raises, if anything. *)
Definition save_metrics (nargs : nat) (body : option Exn) : option Exn :=
  match nargs with
  | O => body
  | S _ => Some TypeError
  end.

(** The number of arguments of the call of [pilot.py], line 183. *)
Definition pilot_call_nargs : nat := 5.

End Control.

(** ** Notions for the properties of runs *)

Module Reach.
Import Py Pilot.

(** What holds of the locals of [run] in every state a run reaches:
    [successful_iteration] is clear whenever [stopped_brain_metrics] is,
    and every wall duration still held has its external duration. *)
Definition consistent (f : Locals) : Prop :=
  (stopped_brain_metrics f = false → successful_iteration f = false)
  ∧ (length (brain_iterations_time f) ≤ length (ros_iterations_time f))%nat.

(** A run of loop turns only. *)
Definition turns (envs : list TickEnv) : list Action := Tick <$> envs.

(** A run of [stop] and [play] commands only. *)
Inductive StopPlay : Type := DoStop | DoPlay.
Definition command (c : StopPlay) : Action :=
  match c with DoStop => Stop | DoPlay => Play end.
Definition commands (cs : list StopPlay) : list Action := command <$> cs.

(** What [stop] and [play] make of the stop event. *)
Definition stop_flag (c : StopPlay) : bool :=
  match c with DoStop => true | DoPlay => false end.

(** The durations the loop has slept, oldest first. *)
Fixpoint sleeps (es : list Event) : list Qc :=
  match es with
  | [] => []
  | Sleep s :: es' => s :: sleeps es'
  | _ :: es' => sleeps es'
  end.

(** The inference statistics of [k] summarizations in a row, with no
    iteration of the brain in between. *)
Fixpoint inference_statistics_times (k : nat) (w : World) : World :=
  match k with
  | O => w
  | S k' => inference_statistics_times k' (inference_statistics w).2
  end.

(** Whether [c] occurs in [s]. *)
Fixpoint occurs (c : Ascii.ascii) (s : string) : bool :=
  match s with
  | EmptyString => false
  | String c' s' => Ascii.eqb c' c || occurs c s'
  end.

(** A brain path: a directory prefix (possibly empty), the robot type
    and the file name. *)
Definition brain_path_of (prefix : list string) (robot file : string) : string :=
  foldr (λ d rest, d +:+ String slash rest)
    (robot +:+ String slash file) prefix.

(** What line 200 writes out: the sleep, if the iteration took less
    than the period. *)
Definition nap (env : TickEnv) : list Event :=
  if lt (ms_before_sleep env) TIME_CYCLE
  then [Sleep ((TIME_CYCLE - ms_before_sleep env) / Qc_of_Z 1000)%Qc]
  else [].

End Reach.

(** ** Further scenarios *)

Module Cases.
Import Py Pilot.

(** An iteration whose [execute] raises something other than
    [AttributeError]. *)
Definition crashing (t : Z) : TickEnv :=
  {| execute_outcome := Raises OtherError;
     clock_msgs := [Scenario.q t];
     ms_before_sleep := Scenario.q 10;
     elapsed_lt_1 := true;
     ms_after_sleep := Scenario.q 50;
     has_metrics_filename := false;
     save_metrics_outcome := None |}.

(** An iteration after which the CARLA controller is handed the
    summary. *)
Definition delivering (t : Z) : TickEnv :=
  {| execute_outcome := Returns Scenario.brain25;
     clock_msgs := [Scenario.q t];
     ms_before_sleep := Scenario.q 10;
     elapsed_lt_1 := true;
     ms_after_sleep := Scenario.q 50;
     has_metrics_filename := true;
     save_metrics_outcome :=
       Control.save_metrics Control.pilot_call_nargs None |}.

(** A segment of two iterations, paused. *)
Definition paused_after_two : World :=
  run [Tick (Scenario.decided 1); Tick (Scenario.decided 2); Stop]
    Scenario.resumed.

(** Collaborators whose brains handler has loaded no brain, and the car
    constructed with them. *)
Definition no_brain : InitEnv :=
  {| built_brains := {| active_brain := None |};
     sensors_pose := (Scenario.q 1, Scenario.q 2);
     brain_pose := (Scenario.q 3, Scenario.q 4) |}.
Definition unloaded_car : World := (new "brains/f1/brain.py" no_brain).2.

(** The controller a car and a drone have registered with, as they were
    constructed. *)
Definition with_car : Control.Controller :=
  (Control.construct "brains/f1/brain.py" Scenario.collaborators
     Control.init).2.
Definition with_drone : Control.Controller :=
  (Control.construct "brains/drone/brain.py" Scenario.collaborators
     Control.init).2.

End Cases.

(** * Properties *)

(** ** Python primitives *)

Section PyFacts.
Import Py.

Lemma is_zero_spec (x : Qc) : is_zero x = true ↔ x = 0%Qc.
Proof.
  unfold is_zero. rewrite Z.eqb_eq. split.
  - intros H. apply Qc_is_canon. unfold Qeq. rewrite H. reflexivity.
  - intros ->. reflexivity.
Qed.

Lemma is_zero_false (x : Qc) : x ≠ 0%Qc → is_zero x = false.
Proof.
  intros H. destruct (is_zero x) eqn:E; [|reflexivity].
  apply is_zero_spec in E. contradiction.
Qed.

Lemma is_zero_len {A} (l : list A) :
  is_zero (len l) = match l with [] => true | _ => false end.
Proof. destruct l; reflexivity. Qed.

Lemma div_empty : div (sum []) (len (@nil Qc)) = Raise ZeroDivisionError.
Proof. reflexivity. Qed.

Lemma div_Ok (x y : Qc) : y ≠ 0%Qc → div x y = Ok (x / y)%Qc.
Proof. intros H. unfold div. by rewrite is_zero_false. Qed.

Lemma div_len {A} (x : Qc) (a : A) (l : list A) :
  div x (len (a :: l)) = Ok (x / len (a :: l))%Qc.
Proof. unfold div. by rewrite is_zero_len. Qed.

Lemma div_Raise (x y : Qc) e :
  div x y = Raise e → e = ZeroDivisionError ∧ y = 0%Qc.
Proof.
  unfold div. destruct (is_zero y) eqn:E; [|discriminate].
  intros [= <-]. split; [reflexivity|]. by apply is_zero_spec.
Qed.

(** Dropping ten samples at each end leaves the middle. *)
Lemma slice_middle {A} (head mid tail : list A) :
  length head = 10%nat → length tail = 10%nat →
  slice 10 (-10) (head ++ mid ++ tail) = mid.
Proof.
  intros Hh Ht. unfold slice, clip.
  rewrite !length_app, Hh, Ht. cbn [Z.ltb Z.compare].
  replace (Z.min 10 (Z.of_nat (10 + (length mid + 10)))) with 10 by lia.
  replace (Z.max 0 (-10 + Z.of_nat (10 + (length mid + 10))) - 10)
    with (Z.of_nat (length mid)) by lia.
  rewrite Nat2Z.id. change (Z.to_nat 10) with 10%nat.
  rewrite drop_app_length' by (symmetry; exact Hh).
  apply take_app_length.
Qed.

(** Twenty samples or fewer leave nothing. *)
Lemma slice_short {A} (l : list A) :
  (length l ≤ 20)%nat → slice 10 (-10) l = [].
Proof.
  intros H. unfold slice, clip. cbn [Z.ltb Z.compare].
  replace (Z.to_nat (Z.max 0 (-10 + Z.of_nat (length l))
                     - Z.min 10 (Z.of_nat (length l)))) with 0%nat by lia.
  apply take_0.
Qed.

(** A list of more than twenty samples has a head and a tail of ten. *)
Lemma split_head_tail {A} (l : list A) :
  (20 < length l)%nat →
  ∃ head mid tail, l = head ++ mid ++ tail
    ∧ length head = 10%nat ∧ length tail = 10%nat ∧ mid ≠ [].
Proof.
  intros H.
  exists (take 10 l), (take (length l - 20) (drop 10 l)),
    (drop (length l - 20) (drop 10 l)).
  rewrite take_drop, take_drop. repeat split.
  - rewrite length_take. lia.
  - rewrite !length_drop. lia.
  - intros E. apply (f_equal length) in E.
    rewrite length_take, length_drop in E. simpl in E. lia.
Qed.

End PyFacts.

(** ** The frame store *)

Section FrameStore.
Import CARLAController.
Context {Data : Type}.
Implicit Types (c : t Data) (d : PyVal Data) (f : string).

Lemma get_data_update_frame_ne c f f' d :
  f' ≠ f → get_data f (update_frame f' d c) = get_data f c.
Proof.
  intros H. unfold get_data, update_frame. simpl.
  by rewrite lookup_insert_ne.
Qed.

Lemma get_data_updates_others c f us :
  get_data f (updates (filter (λ u, u.1 ≠ f) us) c) = get_data f c.
Proof.
  revert c. induction us as [|[f' d'] us IH]; intros c; [reflexivity|].
  rewrite filter_cons. simpl. case_decide as Hf; [|apply IH].
  unfold updates in *. simpl. rewrite IH.
  by apply get_data_update_frame_ne.
Qed.

Lemma updates_snoc c us f d :
  updates (us ++ [(f, d)]) c = update_frame f d (updates us c).
Proof. unfold updates. by rewrite foldl_app. Qed.

Lemma last_write_snoc f us f' d :
  last_write f (us ++ [(f', d)]) =
    if decide (f' = f) then Some d else last_write f us.
Proof.
  induction us as [|[g e] us IH]; simpl.
  - reflexivity.
  - rewrite IH. destruct (decide (f' = f)); [reflexivity|].
    destruct (last_write f us); reflexivity.
Qed.

(** C10. [get_data] after [update_frame] on the same frame returns the
    datum written, whatever was written to that frame before and
    whatever is written to other frames afterwards; after any sequence
    of [update_frame] calls a frame reads as the datum of the last call
    that wrote it (the last write wins); and a frame that no call has
    written reads as [None]. *)
Theorem get_data_last_write c f d us :
  get_data f (update_frame f d c) = d
  ∧ get_data f (updates (filter (λ u, u.1 ≠ f) us) (update_frame f d c)) = d
  ∧ get_data f (updates us c) = default (get_data f c) (last_write f us)
  ∧ get_data f (updates (filter (λ u, u.1 ≠ f) us) init) = None.
Proof.
  assert (H : ∀ c', get_data f (update_frame f d c') = d).
  { intros c'. unfold get_data, update_frame. simpl.
    by rewrite lookup_insert_eq. }
  split; [apply H|]. split; [|split].
  - rewrite get_data_updates_others. apply H.
  - clear H. induction us as [|[f' d'] us IH] using rev_ind; [reflexivity|].
    rewrite updates_snoc, last_write_snoc.
    destruct (decide (f' = f)) as [->|Hne].
    + unfold get_data, update_frame. simpl. by rewrite lookup_insert_eq.
    + rewrite get_data_update_frame_ne by exact Hne. exact IH.
  - rewrite get_data_updates_others. reflexivity.
Qed.

End FrameStore.

(** ** The pilot *)

Section PilotFacts.
Import Py Pilot.

(** Symbolic evaluation of the statements of the model: unfold the
    monad and the record updates, then split on what is left to decide. *)
Ltac py_run :=
  cbv [new init initialize_robot stop_interfaces wait_gazebo blank
       tick iteration pace record_sample running_branch stopped_branch
       summarize deliver inference_statistics assign_inference_times
       execute the_active_brain clock_callback kill play stop start
       assign assign_self read read_self write attr
       mbind mret M_bind M_ret bind ret raise get gets modify try_except
       Exception only when eval sub sink_escape
       with_self with_frame emit set_clock_time
       set_stop_event set_kill_event set_thread set_robot_type set_sensors
       set_actuators set_brains set_start_pose set_execution_completed
       set_it set_stopped_brain_metrics set_successful_iteration
       set_brain_iterations_time set_ros_iterations_time
       self clock_time frame out
       stop_event kill_event thread robot_type sensors actuators brains
       start_pose execution_completed
       it stopped_brain_metrics successful_iteration brain_iterations_time
       ros_iterations_time active_brain inference_times gpu_inference
       first_image is_alive
       execute_outcome clock_msgs ms_before_sleep elapsed_lt_1
       ms_after_sleep has_metrics_filename save_metrics_outcome
       inf_mean_inference_time inf_frame_rate inf_gpu_inference
       inf_first_image
       negb fst snd].

(** The term that keeps [t] from reducing: the scrutinee of its head
    match, through nested matches and applications. *)
Ltac app_head t :=
  lazymatch t with
  | ?f _ => app_head f
  | _ => t
  end.

Ltac blocker t :=
  lazymatch t with
  | match ?x with _ => _ end => blocker x
  | _ =>
      let h := app_head t in
      lazymatch h with
      | match ?x with _ => _ end => blocker x
      | _ => t
      end
  end.

(** Split on what blocks the outermost match of the goal, so that the
    cases follow the paths through the code. An exception that a
    division raised is [ZeroDivisionError]. *)
Ltac py_case :=
  lazymatch goal with
  | |- context [match ?x with _ => _ end] =>
      let y := blocker x in
      first [ is_var y;
              match goal with
              | H : div _ _ = Raise y |- _ =>
                  let E := fresh in
                  pose proof (proj1 (div_Raise _ _ _ H)) as E; subst y
              end
            | is_var y; destruct y
            | destruct y eqn:? ]
  end.

Ltac py_eval := py_run; repeat (py_case; py_run).

Ltac destruct_world w :=
  let se := fresh "stop_ev" in let ke := fresh "kill_ev" in
  let th := fresh "th" in let rt := fresh "rt" in
  let sn := fresh "sens" in let ac := fresh "acts" in
  let br := fresh "brs" in let sp := fresh "pose" in
  let ec := fresh "compl" in let ct := fresh "clk" in
  let i := fresh "i" in let sbm := fresh "sbm" in
  let si := fresh "succ" in let bit := fresh "bit" in
  let rit := fresh "rit" in let o := fresh "o" in
  destruct w as [[se ke th rt sn ac br sp ec] ct [i sbm si bit rit] o].

(** Reduce the projections of explicit records, in the goal and in the
    hypotheses, and nothing else. *)
Ltac py_proj :=
  cbn [self clock_time frame out
       stop_event kill_event thread robot_type sensors actuators brains
       start_pose execution_completed
       it stopped_brain_metrics successful_iteration brain_iterations_time
       ros_iterations_time active_brain inference_times gpu_inference
       first_image
       execute_outcome clock_msgs ms_before_sleep elapsed_lt_1
       ms_after_sleep has_metrics_filename save_metrics_outcome
       fst snd] in *.

Ltac destruct_env env :=
  let eo := fresh "exec" in let cm := fresh "msgs" in
  let msb := fresh "ms0" in let el := fresh "el" in
  let msa := fresh "ms1" in let hm := fresh "has" in
  let smo := fresh "sink" in
  destruct env as [eo cm msb el msa hm smo].

Lemma clock_callbacks_spec msgs w :
  clock_callbacks msgs w
  = (Ok tt, set_clock_time (clock_after msgs (clock_time w)) w).
Proof.
  revert w. induction msgs as [|m msgs IH]; intros w.
  - destruct w; reflexivity.
  - change (clock_callbacks (m :: msgs) w) with
      (clock_callbacks msgs (set_clock_time (Some m) w)).
    rewrite IH. destruct w; reflexivity.
Qed.

(** The body of the loop, with the clock messages folded in. *)
Lemma iteration_unfold env w :
  iteration env w =
    let w1 := set_clock_time (clock_after (clock_msgs env) (clock_time w)) w in
    ((if stop_event (self w) then stopped_branch env else running_branch env);;
     pace env;;
     record_sample env (clock_time w)) w1.
Proof.
  unfold iteration. cbv [mbind M_bind bind gets read_self].
  rewrite clock_callbacks_spec. destruct w as [s c f o]; reflexivity.
Qed.

(** An iteration leaves the events, the thread and the interfaces of
    the pilot alone. *)
Lemma iteration_self env w :
  let w' := (iteration env w).2 in
  stop_event (self w') = stop_event (self w)
  ∧ kill_event (self w') = kill_event (self w)
  ∧ thread (self w') = thread (self w)
  ∧ actuators (self w') = actuators (self w)
  ∧ robot_type (self w') = robot_type (self w).
Proof.
  rewrite iteration_unfold.
  destruct_world w. destruct_env env.
  py_eval; repeat split; reflexivity.
Qed.

Lemma run_cons a acts w : run (a :: acts) w = run acts (step a w).
Proof. reflexivity. Qed.

Lemma run_app acts acts' w : run (acts ++ acts') w = run acts' (run acts w).
Proof. unfold run. apply foldl_app. Qed.

(** What a turn of the loop does to the thread. *)
Lemma tick_thread env w :
  thread (self (tick env w)) =
    match thread (self w) with
    | Alive =>
        if kill_event (self w) then Finished None
        else match (iteration env w).1 with
             | Ok _ => Alive
             | Raise e => Finished (Some e)
             end
    | th => th
    end.
Proof.
  unfold tick. destruct (thread (self w)) eqn:Hth; try (rewrite Hth; reflexivity).
  destruct (kill_event (self w)); [reflexivity|].
  pose proof (iteration_self env w) as (_ & _ & Hth' & _).
  destruct (iteration env w) as [[[]|e] w']; simpl in *.
  - congruence.
  - reflexivity.
Qed.

(** A turn of the loop leaves the events and the interfaces alone. *)
Lemma tick_self env w :
  let w' := tick env w in
  stop_event (self w') = stop_event (self w)
  ∧ kill_event (self w') = kill_event (self w)
  ∧ actuators (self w') = actuators (self w).
Proof.
  unfold tick. destruct (thread (self w)); try (repeat split; reflexivity).
  destruct (kill_event (self w)) eqn:Hk;
    [repeat split; try reflexivity; exact Hk|].
  pose proof (iteration_self env w) as (Hs & Hk' & _ & Ha & _).
  destruct (iteration env w) as [[[]|e] w']; simpl in *;
    repeat split; congruence.
Qed.

(** ** Commands *)

(** C4, as the code has it. [play] on a thread that was not started
    starts it and leaves the stop flag as it is; on a running thread it
    clears the stop flag, after which a further [play] changes nothing; on
    a thread that is over it raises. A pilot is constructed with the stop
    flag set and the thread not started, so that its first [play] starts
    the loop PAUSED and its second one makes it RUNNING. *)
Theorem play_spec (w : World) (brain_path : string) (env : InitEnv) :
  match thread (self w) with
  | NotStarted =>
      (play w).1 = Ok tt
      ∧ thread (self (play w).2) = Alive
      ∧ stop_event (self (play w).2) = stop_event (self w)
      ∧ kill_event (self (play w).2) = kill_event (self w)
  | Alive =>
      play w = (Ok tt, with_self (set_stop_event false) w)
      ∧ play (play w).2 = (Ok tt, (play w).2)
  | Finished _ => play w = (Raise RuntimeError, w)
  end
  ∧ match new brain_path env with
    | (Ok _, w0) =>
        thread (self w0) = NotStarted
        ∧ loop_state (self w0) = PAUSED
        ∧ thread (self (play w0).2) = Alive
        ∧ loop_state (self (play w0).2) = PAUSED
        ∧ loop_state (self (play (play w0).2).2) = RUNNING
    | (Raise _, _) => True
    end.
Proof.
  split.
  - destruct_world w. destruct th; py_eval; repeat split; reflexivity.
  - unfold loop_state. py_eval; try exact I; repeat split; reflexivity.
Qed.

(** C4, as stated, fails: the first [play] of a constructed pilot starts
    the thread with the loop state PAUSED. *)
Lemma play_not_started_not_running :
  ¬ (∀ w : World,
       thread (self w) = NotStarted → loop_state (self (play w).2) = RUNNING).
Proof.
  intros H. specialize (H Scenario.car eq_refl). vm_compute in H. discriminate H.
Qed.

(** C9. [kill] kills the actuators and then sets the kill event. A pilot
    constructed with robot type 'drone' has no actuators: its [kill]
    raises [AttributeError] and changes nothing, whatever has happened
    since the construction, so the kill event is never set and the loop
    never ends on it. *)
Theorem kill_without_actuators (brain_path : string) (env : InitEnv) (w : World) :
  new brain_path env = (Ok tt, w) →
  robot_type (self w) = "drone" →
  actuators (self w) = None
  ∧ kill w = (Raise AttributeError, w)
  ∧ (∀ acts, let w' := run acts w in
       actuators (self w') = None
       ∧ kill w' = (Raise AttributeError, w')
       ∧ kill_event (self w') = false
       ∧ thread (self w') ≠ Finished None)
  ∧ (∀ w1 a, actuators (self w1) = Some a →
       kill w1 = (Ok tt, with_self (set_kill_event true)
                    (with_self (set_actuators (Some {| actuators_killed := true |}))
                       w1))).
Proof.
  intros Hnew Hrt.
  assert (Hraise : ∀ w1, actuators (self w1) = None →
                         kill w1 = (Raise AttributeError, w1)).
  { intros w1 H1. destruct_world w1. simpl in H1. subst. reflexivity. }
  assert (H0 : actuators (self w) = None ∧ kill_event (self w) = false
               ∧ thread (self w) ≠ Finished None).
  { revert Hnew Hrt. py_eval; intros Hnew Hrt; try discriminate Hnew.
    - inversion Hnew; subst. repeat split; try reflexivity; discriminate.
    - inversion Hnew; subst.
      match goal with H : String.eqb _ _ = false |- _ =>
        rewrite String.eqb_refl in H; discriminate H end. }
  split; [apply H0|]. split; [apply Hraise, H0|]. split.
  - intros acts. simpl.
    enough (Hinv : actuators (self (run acts w)) = None
                   ∧ kill_event (self (run acts w)) = false
                   ∧ thread (self (run acts w)) ≠ Finished None).
    { destruct Hinv as (Ha & Hk & Ht). auto. }
    clear Hnew Hrt. revert w H0.
    induction acts as [|a acts IH]; intros w (Ha & Hk & Ht); [auto|].
    rewrite run_cons. apply IH. destruct a as [tenv| | | |t]; simpl.
    + pose proof (tick_self tenv w) as (_ & Hk' & Ha').
      pose proof (tick_thread tenv w) as Ht'. simpl in *.
      rewrite Ha', Hk', Ht'. repeat split; try assumption.
      rewrite Hk. destruct (thread (self w)); try assumption; try discriminate.
      destruct (iteration tenv w).1; discriminate.
    + destruct_world w. simpl in *. subst.
      destruct th; py_eval; repeat split; try discriminate; assumption.
    + destruct_world w. simpl in *. subst. repeat split; assumption.
    + rewrite Hraise by assumption. auto.
    + destruct_world w. simpl in *. subst. repeat split; assumption.
  - intros w1 a H1. destruct_world w1. simpl in H1. subst. reflexivity.
Qed.

Lemma kill_without_actuators_witness :
  Pilot.new "brains/drone/brain.py" Scenario.collaborators = (Ok tt, Scenario.drone)
  ∧ robot_type (self Scenario.drone) = "drone"
  ∧ kill Scenario.drone = (Raise AttributeError, Scenario.drone)
  ∧ kill_event (self (run [Play; Play; Kill] Scenario.drone)) = false.
Proof.
  assert (Hnew : Pilot.new "brains/drone/brain.py" Scenario.collaborators
                 = (Ok tt, Scenario.drone)) by reflexivity.
  assert (Hrt : robot_type (self Scenario.drone) = "drone") by reflexivity.
  pose proof (kill_without_actuators _ _ _ Hnew Hrt) as (_ & Hk & Hrun & _).
  split; [exact Hnew|]. split; [exact Hrt|]. split; [exact Hk|].
  apply (Hrun [Play; Play; Kill]).
Defined.

(** ** The loop *)

Lemma summaries_app es es' :
  summaries (es ++ es') = (summaries es + summaries es')%nat.
Proof. induction es as [|e es IH]; simpl; [reflexivity|]. rewrite IH. lia. Qed.

Lemma observe_inv w o :
  observe w = Some o →
  thread (self w) = Alive ∧ loop_state (self w) = o.
Proof.
  unfold observe, is_alive. destruct (thread (self w)); try discriminate.
  intros [= <-]. auto.
Qed.

Lemma loop_state_running s :
  loop_state s = RUNNING → kill_event s = false ∧ stop_event s = false.
Proof.
  unfold loop_state. destruct (kill_event s), (stop_event s);
    try discriminate; auto.
Qed.

Lemma loop_state_paused s :
  loop_state s = PAUSED → kill_event s = false ∧ stop_event s = true.
Proof.
  unfold loop_state. destruct (kill_event s), (stop_event s);
    try discriminate; auto.
Qed.

(** Bring a turn of the loop on a running, unkilled thread into the form
    the evaluation tactics work on. *)
Ltac enter_tick w env Hobs state_inv :=
  apply observe_inv in Hobs; destruct Hobs as [?Hth Hobs];
  apply state_inv in Hobs; destruct Hobs as [?Hk ?Hs];
  unfold tick; rewrite iteration_unfold;
  destruct_world w; destruct_env env; py_proj; subst.

(** C8. A turn of the loop that finds the state RUNNING and whose
    [execute] signals that no decision is available logs the failure
    and records no sample; the exception does not leave the iteration, and
    the thread stays alive with the state RUNNING, so that the next turn
    runs an iteration again. *)
Theorem no_decision_iteration (env : TickEnv) (w : World) :
  observe w = Some RUNNING →
  no_decision_available env (self w) →
  let w' := tick env w in
  (iteration env w).1 = Ok tt
  ∧ thread (self w') = Alive
  ∧ observe w' = Some RUNNING
  ∧ successful_iteration (frame w') = false
  ∧ brain_iterations_time (frame w') = brain_iterations_time (frame w)
  ∧ ros_iterations_time (frame w') = ros_iterations_time (frame w)
  ∧ out w' = out w ++ [Warning No_Brain_selected; Error AttributeError]
               ++ (if lt (ms_before_sleep env) TIME_CYCLE
                   then [Sleep ((TIME_CYCLE - ms_before_sleep env)
                                / Qc_of_Z 1000)%Qc]
                   else []).
Proof.
  intros Hobs Hno. unfold no_decision_available in Hno.
  rewrite iteration_unfold.
  enter_tick w env Hobs loop_state_running.
  destruct Hno as [-> | [-> | ->]];
    py_eval; rewrite <- ?app_assoc; repeat split; reflexivity.
Qed.

Lemma no_decision_iteration_witness :
  observe Scenario.resumed = Some RUNNING
  ∧ thread (self (tick (Scenario.undecided 1) Scenario.resumed)) = Alive
  ∧ brain_iterations_time (frame (tick (Scenario.undecided 1) Scenario.resumed))
    = [].
Proof.
  assert (Hobs : observe Scenario.resumed = Some RUNNING) by reflexivity.
  assert (Hno : no_decision_available (Scenario.undecided 1)
                  (self Scenario.resumed)).
  { right. right. reflexivity. }
  pose proof (no_decision_iteration _ _ Hobs Hno) as (_ & Hth & _ & _ & Hb & _).
  split; [exact Hobs|]. split; [exact Hth|]. exact Hb.
Defined.

(** C3, what the code does. A turn of the loop that finds the state
    RUNNING while no clock message has arrived yet, and whose [execute]
    returns, ends the thread with [TypeError]: line 204 subtracts
    [start_time_ros], which is [None]. Neither sample of the iteration is
    recorded. *)
Theorem clock_unavailable_iteration (env : TickEnv) (w : World) (b b' : Brain) :
  observe w = Some RUNNING →
  clock_time w = None →
  brains (self w) = Some {| active_brain := Some b |} →
  execute_outcome env = Returns b' →
  let w' := tick env w in
  (iteration env w).1 = Raise TypeError
  ∧ thread (self w') = Finished (Some TypeError)
  ∧ observe w' = None
  ∧ brain_iterations_time (frame w') = brain_iterations_time (frame w)
  ∧ ros_iterations_time (frame w') = ros_iterations_time (frame w).
Proof.
  intros Hobs Hclk Hbr Hex.
  rewrite iteration_unfold.
  enter_tick w env Hobs loop_state_running.
  py_eval; repeat split; reflexivity.
Qed.

Lemma clock_unavailable_iteration_witness :
  thread (self (tick Scenario.decided_without_clock
                  (run [Play; Play] Scenario.car)))
  = Finished (Some TypeError)
  ∧ thread (self (tick (Scenario.decided 5) (run [Play; Play] Scenario.car)))
    = Finished (Some TypeError).
Proof.
  split.
  - apply (clock_unavailable_iteration Scenario.decided_without_clock
             (run [Play; Play] Scenario.car) Scenario.brain25 Scenario.brain25);
      reflexivity.
  - apply (clock_unavailable_iteration (Scenario.decided 5)
             (run [Play; Play] Scenario.car) Scenario.brain25 Scenario.brain25);
      reflexivity.
Defined.

(** C1, what the code does. At a RUNNING-to-PAUSED edge whose segment
    recorded no sample, the division of line 175 raises
    [ZeroDivisionError]; it ends the thread, and no summary is
    produced. *)
Theorem summarize_empty_segment (env : TickEnv) (w : World) :
  observe w = Some PAUSED →
  stopped_brain_metrics (frame w) = true →
  brain_iterations_time (frame w) = [] →
  let w' := tick env w in
  (summarize w).1 = Raise ZeroDivisionError
  ∧ thread (self w') = Finished (Some ZeroDivisionError)
  ∧ summaries (out w') = summaries (out w).
Proof.
  intros Hobs Hsbm Hbit.
  enter_tick w env Hobs loop_state_paused.
  py_eval;
    try match goal with
        | H : div (sum []) (len []) = Ok _ |- _ =>
            rewrite div_empty in H; discriminate H
        end.
  all: rewrite ?summaries_app; cbn [summaries is_summary].
  all: match goal with
       | H : div (sum []) (len []) = Raise _ |- _ =>
           rewrite div_empty in H; injection H as <-
       end.
  all: repeat split; try reflexivity; lia.
Qed.

Lemma summarize_empty_segment_witness :
  let w := run [Tick (Scenario.undecided 1); Tick (Scenario.undecided 2); Stop]
             Scenario.resumed in
  observe w = Some PAUSED
  ∧ thread (self (tick (Scenario.decided 3) w)) = Finished (Some ZeroDivisionError).
Proof.
  cbv zeta. split; [reflexivity|].
  apply (summarize_empty_segment (Scenario.decided 3)
           (run [Tick (Scenario.undecided 1); Tick (Scenario.undecided 2); Stop]
              Scenario.resumed)); reflexivity.
Defined.

(** C2, what the code does. At a RUNNING-to-PAUSED edge whose
    summarization goes through, line 188 empties [brain_iterations_time]
    and nothing empties [ros_iterations_time]: the external durations of
    the summarized segment stay in the sequence. The summary is produced
    and the external durations are kept whatever the hand-over to the
    controller does; when [save_metrics] raises an exception that
    [except Exception] does not catch, it ends the thread before line
    188, and [brain_iterations_time] is kept as well. *)
Theorem summarized_segment_keeps_ros_samples (env : TickEnv) (w : World) :
  observe w = Some PAUSED →
  stopped_brain_metrics (frame w) = true →
  brain_iterations_time (frame w) ≠ [] →
  ros_iterations_time (frame w) ≠ [] →
  let w' := tick env w in
  summaries (out w') = S (summaries (out w))
  ∧ ros_iterations_time (frame w') = ros_iterations_time (frame w)
  ∧ match sink_escape env with
    | None =>
        thread (self w') = Alive
        ∧ brain_iterations_time (frame w') = []
    | Some e =>
        thread (self w') = Finished (Some e)
        ∧ brain_iterations_time (frame w') = brain_iterations_time (frame w)
    end.
Proof.
  intros Hobs Hsbm Hbit Hrit.
  enter_tick w env Hobs loop_state_paused.
  destruct bit as [|x bit]; [congruence|].
  destruct rit as [|y rit]; [congruence|].
  py_eval.
  all: try match goal with
           | H : div _ (len (_ :: _)) = Raise _ |- _ =>
               rewrite div_len in H; discriminate H
           end.
  all: rewrite ?summaries_app; cbn [summaries is_summary].
  all: repeat split; try reflexivity; lia.
Qed.

Lemma summarized_segment_keeps_ros_samples_witness :
  let w := run [Tick (Scenario.decided 1); Tick (Scenario.decided 2); Stop]
             Scenario.resumed in
  length (ros_iterations_time (frame w)) = 2%nat
  ∧ length (brain_iterations_time (frame (tick (Scenario.decided 3) w))) = 0%nat
  ∧ length (ros_iterations_time (frame (tick (Scenario.decided 3) w))) = 2%nat.
Proof.
  cbv zeta.
  pose proof (summarized_segment_keeps_ros_samples (Scenario.decided 3)
    (run [Tick (Scenario.decided 1); Tick (Scenario.decided 2); Stop]
       Scenario.resumed)) as H.
  destruct H as (_ & Hr & Hm);
    [reflexivity | reflexivity | discriminate | discriminate |].
  change (sink_escape (Scenario.decided 3)) with (@None Exn) in Hm.
  cbv iota in Hm. destruct Hm as [_ Hb].
  rewrite Hb, Hr. repeat split; reflexivity.
Defined.

(** ** The inference statistics *)

(** C6. When the brain has more than 20 inference samples, the
    summarization drops the first 10 and the last 10, leaves the rest in
    the brain, and reports the mean of the rest as the mean inference
    time and their number over their sum as the frame rate. *)
Theorem trimmed_inference_statistics (w : World) (b : Brain)
    (head mid tail : list Qc) (gpu : bool) (first : option Image) :
  brains (self w) = Some {| active_brain := Some b |} →
  inference_times b = Some (head ++ mid ++ tail) →
  (20 < length (head ++ mid ++ tail))%nat →
  length head = 10%nat →
  length tail = 10%nat →
  sum mid ≠ 0%Qc →
  gpu_inference b = Some gpu →
  first_image b = Some first →
  (inference_statistics w).1
  = Ok {| inf_mean_inference_time := (sum mid / len mid)%Qc;
          inf_frame_rate := (len mid / sum mid)%Qc;
          inf_gpu_inference := gpu;
          inf_first_image := first |}
  ∧ inference_samples (self (inference_statistics w).2) = Some mid
  ∧ ∀ m, (summarize w).1 = Ok m →
      mean_inference_time m = (sum mid / len mid)%Qc
      ∧ frame_rate m = (len mid / sum mid)%Qc
      ∧ used_gpu_inference m = gpu
      ∧ first_output m = first.
Proof.
  intros Hbr Hts Hlen Hhead Htail Hsum Hgpu Hfirst.
  destruct_world w. destruct b as [ts g f]. py_proj. subst.
  assert (Hmid : mid ≠ []).
  { intros ->. rewrite !length_app, Hhead, Htail in Hlen. simpl in Hlen. lia. }
  destruct mid as [|x mid]; [congruence|].
  unfold inference_samples. py_run.
  rewrite !slice_middle by assumption.
  rewrite !div_len, !(div_Ok _ _ Hsum). py_run.
  split; [reflexivity|]. split; [reflexivity|].
  intros m. py_eval; intros [= <-]; repeat split; reflexivity.
Qed.

Lemma trimmed_inference_statistics_witness :
  (inference_statistics Scenario.car).1
  = Ok {| inf_mean_inference_time := Scenario.q 13;
          inf_frame_rate := (Scenario.q 5 / Scenario.q 65)%Qc;
          inf_gpu_inference := true;
          inf_first_image := Some 7%nat |}
  ∧ inference_samples (self (inference_statistics Scenario.car).2)
    = Some (Scenario.q <$> [11; 12; 13; 14; 15]).
Proof.
  pose proof (trimmed_inference_statistics Scenario.car Scenario.brain25
    (Scenario.q <$> seqZ 1 10) (Scenario.q <$> seqZ 11 5)
    (Scenario.q <$> seqZ 16 10) true (Some 7%nat)) as H.
  destruct H as (Hs & Hb & _);
    [reflexivity | reflexivity | vm_compute; lia | reflexivity | reflexivity
    | intros E; apply is_zero_spec in E; vm_compute in E; discriminate E
    | reflexivity | reflexivity |].
  split; [|exact Hb].
  rewrite Hs. f_equal. f_equal; apply Qc_is_canon; reflexivity.
Defined.

(** When the brain has 20 inference samples or fewer, or none at all (no
    brain, or a brain without the attribute), the inference statistics of
    lines 157-173 do not raise: the error is logged and they fall back to
    0, 0, [False] and [None]. The summarization then reports these
    values, unless the division of line 175 or 176 raises
    [ZeroDivisionError] on an empty sequence of iteration samples. *)
Lemma inference_statistics_fallback (w : World) :
  (length (default [] (inference_samples (self w))) ≤ 20)%nat →
  (inference_statistics w).1
  = Ok {| inf_mean_inference_time := 0%Qc;
          inf_frame_rate := 0%Qc;
          inf_gpu_inference := false;
          inf_first_image := None |}
  ∧ (∃ e, out (inference_statistics w).2
          = out w ++ [Error e; Info No_inference_brain])
  ∧ (∀ m, (summarize w).1 = Ok m →
       mean_inference_time m = 0%Qc
       ∧ frame_rate m = 0%Qc
       ∧ used_gpu_inference m = false
       ∧ first_output m = None)
  ∧ (∀ e, (summarize w).1 = Raise e →
       e = ZeroDivisionError
       ∧ (brain_iterations_time (frame w) = []
          ∨ ros_iterations_time (frame w) = [])).
Proof.
  intros Hlen. destruct_world w.
  destruct brs as [[[[[ts|] g f]|]]|]; cbn in Hlen.
  1: py_run; rewrite !slice_short by exact Hlen; rewrite !div_empty.
  all: py_run; rewrite <- ?app_assoc; cbn [app].
  all: split; [reflexivity|]; split; [eexists; reflexivity|]; split.
  all: try (intros m; py_eval; intros [= <-]; repeat split; reflexivity).
  all: intros e; py_eval; intros [= <-].
  all: repeat match goal with
         | H : div _ (len ?l) = Raise _ |- _ =>
             apply div_Raise in H; destruct H as [-> H];
             apply is_zero_spec in H; rewrite is_zero_len in H;
             destruct l; [|discriminate H]
         end;
       split; auto.
Qed.

(** A pilot on which no brain is loaded stays so, whatever is done
    and whatever its loop meets: no iteration is successful, and no sample
    is recorded. *)
Lemma step_unloaded a w : unloaded w → unloaded (step a w).
Proof.
  unfold unloaded. intros (Hbr & Hbit & Hsi).
  destruct a as [env| | | |t]; unfold step.
  - unfold tick. rewrite iteration_unfold.
    destruct_world w. destruct_env env. py_proj. subst.
    py_eval; repeat split; reflexivity.
  - destruct_world w. py_proj. subst.
    destruct th; py_eval; repeat split; reflexivity.
  - destruct_world w. py_proj. subst. py_eval; repeat split; reflexivity.
  - destruct_world w. py_proj. subst. py_eval; repeat split; reflexivity.
  - destruct_world w. py_proj. subst. py_eval; repeat split; reflexivity.
Qed.

Lemma run_unloaded acts w : unloaded w → unloaded (run acts w).
Proof.
  revert w. induction acts as [|a acts IH]; intros w H; [exact H|].
  rewrite run_cons. apply IH, step_unloaded, H.
Qed.

Lemma new_unloaded brain_path env w :
  new brain_path env = (Ok tt, w) →
  active_brain (built_brains env) = None →
  unloaded w.
Proof.
  destruct env as [[ab] sp bp]. cbn [built_brains active_brain].
  intros Hnew ->. revert Hnew. unfold unloaded.
  py_run. cbn [built_brains sensors_pose brain_pose].
  py_eval; intros H; try discriminate H; inversion H; subst;
    repeat split; reflexivity.
Qed.

(** C7, what the code does. The inference statistics fall back as the
    claim says: with 20 samples or fewer, or none, lines 157-173 do not
    raise and leave 0, 0, [False] and [None]. The summarization as a whole
    does raise: on a pilot whose brain was never loaded no iteration is
    successful, so that every summarization, after the fallback and its
    log, divides by the length of an empty [brain_iterations_time] at line
    175; [ZeroDivisionError] ends the thread and no summary is
    produced. *)
Theorem unloaded_summarization_raises (brain_path : string) (ienv : InitEnv)
    (w0 : World) (acts : list Action) (env : TickEnv) :
  new brain_path ienv = (Ok tt, w0) →
  active_brain (built_brains ienv) = None →
  let w := run acts w0 in
  observe w = Some PAUSED →
  stopped_brain_metrics (frame w) = true →
  let w' := tick env w in
  inference_samples (self w) = None
  ∧ (inference_statistics w).1 = Ok no_inference
  ∧ out (inference_statistics w).2
    = out w ++ [Error AttributeError; Info No_inference_brain]
  ∧ (summarize w).1 = Raise ZeroDivisionError
  ∧ thread (self w') = Finished (Some ZeroDivisionError)
  ∧ summaries (out w') = summaries (out w)
  ∧ ∀ w1, (length (default [] (inference_samples (self w1))) ≤ 20)%nat →
          (inference_statistics w1).1 = Ok no_inference.
Proof.
  intros Hnew Hnone. cbv zeta.
  pose proof (run_unloaded acts w0 (new_unloaded _ _ _ Hnew Hnone)) as Hun.
  revert Hun. generalize (run acts w0). clear.
  intros w (Hbr & Hbit & Hsi) Hobs Hsbm.
  assert (H : inference_samples (self w) = None
              ∧ (inference_statistics w).1 = Ok no_inference
              ∧ out (inference_statistics w).2
                = out w ++ [Error AttributeError; Info No_inference_brain]
              ∧ (summarize w).1 = Raise ZeroDivisionError
              ∧ thread (self (tick env w)) = Finished (Some ZeroDivisionError)
              ∧ summaries (out (tick env w)) = summaries (out w)).
  { enter_tick w env Hobs loop_state_paused.
    unfold inference_samples, no_inference.
    py_eval;
      try match goal with
          | H : div (sum []) (len []) = Ok _ |- _ =>
              rewrite div_empty in H; discriminate H
          end.
    all: match goal with
         | H : div (sum []) (len []) = Raise _ |- _ =>
             rewrite div_empty in H; injection H as <-
         end.
    all: rewrite ?summaries_app; cbn [summaries is_summary].
    all: rewrite <- ?app_assoc; cbn [app].
    all: repeat split; try reflexivity; lia. }
  destruct H as (H1 & H2 & H3 & H4 & H5 & H6).
  repeat split; try assumption.
  intros w1 Hlen. exact (proj1 (inference_statistics_fallback w1 Hlen)).
Qed.

Lemma unloaded_summarization_raises_witness :
  let w := run [Play; Play; Clock (Scenario.q 0); Tick (Scenario.decided 1);
                Tick (Scenario.decided 2); Stop] Cases.unloaded_car in
  observe w = Some PAUSED
  ∧ thread (self (tick (Scenario.decided 3) w))
    = Finished (Some ZeroDivisionError).
Proof.
  cbv zeta.
  assert (Hobs : observe
    (run [Play; Play; Clock (Scenario.q 0); Tick (Scenario.decided 1);
          Tick (Scenario.decided 2); Stop] Cases.unloaded_car) = Some PAUSED)
    by (vm_compute; reflexivity).
  assert (Hsbm : stopped_brain_metrics (frame
    (run [Play; Play; Clock (Scenario.q 0); Tick (Scenario.decided 1);
          Tick (Scenario.decided 2); Stop] Cases.unloaded_car)) = true)
    by (vm_compute; reflexivity).
  split; [exact Hobs|].
  destruct (unloaded_summarization_raises "brains/f1/brain.py" Cases.no_brain
              Cases.unloaded_car
              [Play; Play; Clock (Scenario.q 0); Tick (Scenario.decided 1);
               Tick (Scenario.decided 2); Stop]
              (Scenario.decided 3) eq_refl eq_refl Hobs Hsbm)
    as (_ & _ & _ & _ & Hth & _).
  exact Hth.
Defined.

(** ** Summaries along a run *)

(** A turn that finds the state RUNNING produces no summary and leaves
    [stopped_brain_metrics] set, unless an exception ends the thread. *)
Lemma tick_running env w :
  observe w = Some RUNNING →
  let w' := tick env w in
  (∃ e, thread (self w') = Finished (Some e))
  ∨ (thread (self w') = Alive
     ∧ stopped_brain_metrics (frame w') = true
     ∧ summaries (out w') = summaries (out w)).
Proof.
  intros Hobs. enter_tick w env Hobs loop_state_running.
  py_eval.
  all: rewrite ?summaries_app; cbn [summaries is_summary].
  all: first [ left; eexists; reflexivity
             | right; repeat split; try reflexivity; lia ].
Qed.

(** A turn that finds the state PAUSED produces one summary when
    [stopped_brain_metrics] is set and none otherwise, and leaves
    [stopped_brain_metrics] clear, unless an exception ends the thread. *)
Lemma tick_paused env w :
  observe w = Some PAUSED →
  let w' := tick env w in
  (∃ e, thread (self w') = Finished (Some e))
  ∨ (thread (self w') = Alive
     ∧ stopped_brain_metrics (frame w') = false
     ∧ summaries (out w')
       = (summaries (out w)
          + if stopped_brain_metrics (frame w) then 1 else 0)%nat).
Proof.
  intros Hobs. enter_tick w env Hobs loop_state_paused.
  py_eval.
  all: rewrite ?summaries_app; cbn [summaries is_summary].
  all: first [ left; eexists; reflexivity
             | right; repeat split; try reflexivity; lia ].
Qed.

(** A turn that finds the state KILLED ends the loop without a summary. *)
Lemma tick_killed env w :
  observe w = Some KILLED →
  let w' := tick env w in
  thread (self w') = Finished None
  ∧ summaries (out w') = summaries (out w).
Proof.
  intros Hobs. apply observe_inv in Hobs. destruct Hobs as [Hth Hst].
  assert (Hk : kill_event (self w) = true).
  { unfold loop_state in Hst.
    destruct (kill_event (self w)); [reflexivity|].
    destruct (stop_event (self w)); discriminate Hst. }
  unfold tick. rewrite Hth, Hk. destruct_world w.
  py_run. rewrite !summaries_app. cbn [summaries is_summary].
  split; [reflexivity | lia].
Qed.

(** Once the thread is over, nothing is written and no turn observes
    anything any more. *)
Lemma step_finished a w x :
  thread (self w) = Finished x →
  thread (self (step a w)) = Finished x ∧ out (step a w) = out w.
Proof.
  intros Hth. destruct a as [env| | | |t]; unfold step.
  - unfold tick. rewrite Hth. auto.
  - destruct_world w. py_proj. subst. py_eval; auto.
  - destruct_world w. py_proj. subst. py_eval; auto.
  - destruct_world w. py_proj. subst. py_eval; auto.
  - destruct_world w. py_proj. subst. py_eval; auto.
Qed.

Lemma run_finished acts w x :
  thread (self w) = Finished x →
  thread (self (run acts w)) = Finished x
  ∧ out (run acts w) = out w
  ∧ observations acts w = [].
Proof.
  revert w. induction acts as [|a acts IH]; intros w Hth; [auto|].
  rewrite run_cons. destruct (step_finished a w x Hth) as [Hth' Hout].
  destruct (IH _ Hth') as (H1 & H2 & H3).
  split; [exact H1|]. split; [congruence|].
  cbn [observations]. rewrite H3.
  destruct a; try reflexivity.
  unfold observe, is_alive. rewrite Hth. reflexivity.
Qed.

(** A command leaves the summaries alone and keeps [tracks]. *)
Lemma command_tracks a prev w :
  (∀ env, a ≠ Tick env) →
  tracks prev w →
  tracks prev (step a w) ∧ summaries (out (step a w)) = summaries (out w).
Proof.
  intros Hcmd Htr. unfold tracks in *.
  destruct a as [env| | | |t]; [exfalso; exact (Hcmd env eq_refl)| | | |];
    unfold step; destruct_world w; py_proj;
    destruct th; subst; py_eval;
    rewrite ?summaries_app; cbn [summaries is_summary];
    split; try reflexivity; try exact I; try assumption; lia.
Qed.

Lemma summaries_transitions acts :
  ∀ w prev,
    tracks prev w →
    (∀ e, thread (self (run acts w)) ≠ Finished (Some e)) →
    summaries (out (run acts w))
    = (summaries (out w) + transitions is_paused prev (observations acts w))%nat.
Proof.
  induction acts as [|a acts IH]; intros w prev Htr Hlive.
  { cbn. lia. }
  rewrite run_cons in *. cbn [observations].
  assert (Hcmd : (∀ env, a ≠ Tick env) →
    summaries (out (run acts (step a w)))
    = (summaries (out w)
       + transitions is_paused prev (observations acts (step a w)))%nat).
  { intros Hne. destruct (command_tracks a prev w Hne Htr) as [Htr' Hs].
    rewrite (IH _ prev Htr' Hlive). lia. }
  destruct a as [env| | | |t]; try (apply Hcmd; discriminate).
  clear Hcmd. cbn [step] in *.
  destruct (observe w) as [o|] eqn:Hobs; cbn [app].
  - destruct o.
    + destruct (tick_running env w Hobs) as [[e He] | (Hth & Hsbm & Hs)].
      * destruct (run_finished acts _ _ He) as (Hf & _ & _).
        exfalso. exact (Hlive e Hf).
      * assert (Htr' : tracks true (tick env w)).
        { unfold tracks. rewrite Hth. exact Hsbm. }
        rewrite (IH _ true Htr' Hlive), Hs.
        cbn [transitions is_paused is_running]. rewrite andb_false_r. lia.
    + destruct (tick_paused env w Hobs) as [[e He] | (Hth & Hsbm & Hs)].
      * destruct (run_finished acts _ _ He) as (Hf & _ & _).
        exfalso. exact (Hlive e Hf).
      * assert (Htr' : tracks false (tick env w)).
        { unfold tracks. rewrite Hth. exact Hsbm. }
        rewrite (IH _ false Htr' Hlive), Hs.
        cbn [transitions is_paused is_running]. rewrite andb_true_r.
        apply observe_inv in Hobs. destruct Hobs as [Hal _].
        unfold tracks in Htr. rewrite Hal in Htr. rewrite Htr. lia.
    + destruct (tick_killed env w Hobs) as (Hth & Hs).
      destruct (run_finished acts _ _ Hth) as (_ & Hout & Hnone).
      rewrite Hout, Hnone, Hs.
      cbn [transitions is_paused is_running]. rewrite andb_false_r. lia.
  - assert (Hsame : tick env w = w).
    { unfold tick. unfold observe, is_alive in Hobs.
      destruct (thread (self w)); try reflexivity. discriminate Hobs. }
    rewrite Hsame in *. apply (IH _ prev Htr Hlive).
Qed.

(** A pilot is constructed with the thread not started and nothing
    written. *)
Lemma new_fresh brain_path env w :
  new brain_path env = (Ok tt, w) →
  thread (self w) = NotStarted ∧ out w = [].
Proof.
  py_eval; intros H; try discriminate H; inversion H; subst; auto.
Qed.

(** C5, as the code has it. Along every run of a constructed pilot in
    which no exception ends the loop thread, the number of summaries
    produced is the number of turns of the loop that found PAUSED right
    after a turn that found RUNNING. A turn that finds KILLED ends the
    loop without a summary, whatever the turn before it found. *)
Theorem summaries_per_pause (brain_path : string) (env : InitEnv) (w : World)
    (acts : list Action) :
  new brain_path env = (Ok tt, w) →
  (∀ e, thread (self (run acts w)) ≠ Finished (Some e)) →
  summaries (out (run acts w))
  = transitions is_paused false (observations acts w)
  ∧ ∀ tenv w1, observe w1 = Some KILLED →
      thread (self (tick tenv w1)) = Finished None
      ∧ summaries (out (tick tenv w1)) = summaries (out w1).
Proof.
  intros Hnew Hlive. destruct (new_fresh _ _ _ Hnew) as [Hth Hout]. split.
  - rewrite (summaries_transitions acts w false); [|
      unfold tracks; rewrite Hth; reflexivity | exact Hlive].
    rewrite Hout. reflexivity.
  - intros tenv w1 Hk. exact (tick_killed tenv w1 Hk).
Qed.

Lemma summaries_per_pause_witness :
  let acts := [Play; Play; Clock (Scenario.q 0); Tick (Scenario.decided 1);
               Stop; Tick (Scenario.decided 2); Play; Stop;
               Tick (Scenario.decided 3)] in
  observations acts Scenario.car = [RUNNING; PAUSED; PAUSED]
  ∧ summaries (out (run acts Scenario.car)) = 1%nat.
Proof.
  cbv zeta. split; [reflexivity|].
  pose proof (summaries_per_pause "brains/f1/brain.py" Scenario.collaborators
    Scenario.car
    [Play; Play; Clock (Scenario.q 0); Tick (Scenario.decided 1);
     Stop; Tick (Scenario.decided 2); Play; Stop; Tick (Scenario.decided 3)])
    as H.
  destruct H as [H _];
    [reflexivity | intros e; vm_compute; discriminate |].
  rewrite H. reflexivity.
Defined.

(** C5, as stated, fails: a loop that is killed while RUNNING, after an
    iteration, ends without a summary. *)
Lemma kill_produces_no_summary :
  ¬ (∀ acts : list Action,
       (∀ e, thread (self (run acts Scenario.car)) ≠ Finished (Some e)) →
       summaries (out (run acts Scenario.car))
       = transitions is_paused_or_killed false
           (observations acts Scenario.car)).
Proof.
  intros H.
  specialize (H [Play; Play; Clock (Scenario.q 0); Tick (Scenario.decided 1);
                 Kill; Tick (Scenario.decided 2)]).
  assert (Hlive : ∀ e,
    thread (self (run [Play; Play; Clock (Scenario.q 0);
                       Tick (Scenario.decided 1); Kill;
                       Tick (Scenario.decided 2)] Scenario.car))
    ≠ Finished (Some e)).
  { intros e. vm_compute. discriminate. }
  specialize (H Hlive). vm_compute in H. discriminate H.
Qed.

(** * Further properties of the code *)

Import Reach.

(** ** Construction *)

Lemma append_nil (s : string) : (EmptyString +:+ s) = s.
Proof. reflexivity. Qed.

Lemma append_cons c (a s : string) : (String c a +:+ s) = String c (a +:+ s).
Proof. reflexivity. Qed.

(** Splitting distributes over a separator. *)
Lemma split_acc_app sep acc a b :
  split_acc sep acc (a +:+ String sep b)
  = split_acc sep acc a ++ split_acc sep EmptyString b.
Proof.
  revert acc. induction a as [|c a IH]; intros acc.
  - rewrite append_nil. cbn [split_acc]. rewrite Ascii.eqb_refl. reflexivity.
  - rewrite append_cons. cbn [split_acc].
    destruct (Ascii.eqb c sep); [rewrite IH; reflexivity | apply IH].
Qed.

(** A string without the separator is one component. *)
Lemma split_acc_plain sep acc s :
  occurs sep s = false → split_acc sep acc s = [String.rev_app acc s].
Proof.
  revert acc. induction s as [|c s IH]; intros acc H; cbn [occurs split_acc] in *.
  - reflexivity.
  - apply orb_false_iff in H. destruct H as [Hc Hs].
    rewrite Hc. rewrite IH by exact Hs. reflexivity.
Qed.

Lemma split_brain_path prefix robot file :
  occurs slash robot = false →
  occurs slash file = false →
  ∃ dirs, split slash (brain_path_of prefix robot file) = dirs ++ [robot; file].
Proof.
  intros Hr Hf. unfold split.
  induction prefix as [|d prefix [dirs IH]]; cbn [brain_path_of foldr].
  - exists []. rewrite split_acc_app, !split_acc_plain by assumption.
    reflexivity.
  - exists (split_acc slash EmptyString d ++ dirs).
    rewrite split_acc_app. fold (brain_path_of prefix robot file).
    rewrite IH. by rewrite app_assoc.
Qed.

Lemma index_penultimate {A} (l : list A) (x y : A) :
  index (l ++ [x; y]) (-2) = Ok x.
Proof.
  unfold index. cbv zeta. rewrite length_app. cbn [length Z.ltb Z.compare].
  replace (-2 + Z.of_nat (length l + 2)) with (Z.of_nat (length l)) by lia.
  replace (Z.of_nat (length l) <? 0) with false by (symmetry; apply Z.ltb_ge; lia).
  replace (Z.of_nat (length l + 2) <=? Z.of_nat (length l)) with false
    by (symmetry; apply Z.leb_gt; lia).
  cbn [orb]. rewrite Nat2Z.id.
  rewrite (list_lookup_middle l [y] x) by reflexivity. reflexivity.
Qed.

(** X1. The robot type of a pilot is the name of the directory that
    holds the brain file: for a brain path that ends in
    [robot/file], whatever directories come before, [split("/")[-2]]
    is [robot], and the constructor stores it. *)
Theorem robot_type_of_brain_path (prefix : list string) (robot file : string)
    (env : InitEnv) :
  occurs slash robot = false →
  occurs slash file = false →
  index (split slash (brain_path_of prefix robot file)) (-2) = Ok robot
  ∧ robot_type (self (new (brain_path_of prefix robot file) env).2) = robot.
Proof.
  intros Hr Hf.
  destruct (split_brain_path prefix robot file Hr Hf) as [dirs Hs].
  assert (Hi : index (split slash (brain_path_of prefix robot file)) (-2)
               = Ok robot).
  { rewrite Hs. apply index_penultimate. }
  split; [exact Hi|].
  unfold new, init. cbv [mbind M_bind bind eval]. rewrite Hi.
  py_eval; reflexivity.
Qed.

Lemma robot_type_of_brain_path_witness :
  index (split slash "home/user/brains/f1/brain.py") (-2) = Ok "f1"
  ∧ robot_type (self (new "home/user/brains/f1/brain.py"
                        Scenario.collaborators).2) = "f1".
Proof.
  apply (robot_type_of_brain_path ["home"; "user"; "brains"] "f1" "brain.py"
           Scenario.collaborators); reflexivity.
Defined.

(** X2. A brain path without a "/" has a single component: the
    constructor raises [IndexError] at line 74, before any interface or
    brain is built. *)
Theorem path_without_slash_is_rejected (brain_path : string) (env : InitEnv) :
  occurs slash brain_path = false →
  new brain_path env = (Raise IndexError, blank).
Proof.
  intros H. unfold new, init, split. cbv [mbind M_bind bind eval].
  rewrite split_acc_plain by exact H. reflexivity.
Qed.

Lemma path_without_slash_is_rejected_witness :
  new "brain.py" Scenario.collaborators = (Raise IndexError, blank).
Proof.
  apply (path_without_slash_is_rejected "brain.py" Scenario.collaborators).
  reflexivity.
Defined.

(** X3. What the constructor leaves behind, for a brain path whose
    robot type is [rt]. The pilot is PAUSED with its thread not started and
    holds the brains handler. A drone has no sensors and no actuators,
    takes its start pose from the active brain, and its constructor
    raises [AttributeError] when no brain is active; any other robot gets
    fresh sensors and actuators, takes its start pose from the sensors,
    and its constructor does not raise. *)
Theorem constructed_pilot (brain_path : string) (env : InitEnv) (rt : string) :
  index (split slash brain_path) (-2) = Ok rt →
  let r := (new brain_path env).1 in
  let w := (new brain_path env).2 in
  robot_type (self w) = rt
  ∧ loop_state (self w) = PAUSED
  ∧ thread (self w) = NotStarted
  ∧ brains (self w) = Some (built_brains env)
  ∧ frame w = frame blank ∧ out w = [] ∧ clock_time w = None
  ∧ if String.eqb rt "drone" then
      sensors (self w) = None ∧ actuators (self w) = None
      ∧ match active_brain (built_brains env) with
        | Some _ => r = Ok tt ∧ start_pose (self w) = brain_pose env
        | None => r = Raise AttributeError
        end
    else
      r = Ok tt
      ∧ sensors (self w)
        = Some {| sensors_killed := false; pose3d_0 := sensors_pose env |}
      ∧ actuators (self w) = Some {| actuators_killed := false |}
      ∧ start_pose (self w) = sensors_pose env.
Proof.
  intros Hi. destruct env as [[ab] sp bp].
  cbn [built_brains sensors_pose brain_pose active_brain].
  unfold new, init, loop_state. cbv [mbind M_bind bind eval]. rewrite Hi.
  py_run. cbn [built_brains sensors_pose brain_pose].
  py_eval; repeat split; reflexivity.
Qed.

Lemma constructed_pilot_witness :
  loop_state (self Scenario.car) = PAUSED
  ∧ actuators (self Scenario.car) = Some {| actuators_killed := false |}
  ∧ actuators (self Scenario.drone) = None.
Proof.
  pose proof (constructed_pilot "brains/f1/brain.py" Scenario.collaborators
                "f1" eq_refl) as (_ & Hp & _ & _ & _ & _ & _ & Hc).
  pose proof (constructed_pilot "brains/drone/brain.py" Scenario.collaborators
                "drone" eq_refl) as (_ & _ & _ & _ & _ & _ & _ & Hd).
  cbn [String.eqb Ascii.eqb Bool.eqb] in Hc, Hd.
  destruct Hc as (_ & _ & Ha & _). destruct Hd as (_ & Hn & _).
  split; [exact Hp|]. split; [exact Ha | exact Hn].
Defined.

(** ** One turn of the loop *)

Lemma clock_after_Some msgs t : ∃ t1, clock_after msgs (Some t) = Some t1.
Proof.
  revert t. induction msgs as [|m msgs IH]; intros t; [by exists t|].
  apply (IH m).
Qed.

Lemma clock_after_None msgs c : clock_after msgs c = None → c = None.
Proof.
  destruct c as [t|]; [|reflexivity].
  destruct (clock_after_Some msgs t) as [t1 ->]. discriminate.
Qed.

(** X4. A turn of the loop that finds the state RUNNING with the clock
    available, and whose [execute] returns, records exactly one sample
    in each list: the ROS time that passed between the start of the turn
    and its end, and the wall time of the turn in seconds. The thread
    stays alive and the brain is left as [execute] left it. *)
Theorem successful_iteration_records_samples (env : TickEnv) (w : World)
    (b b' : Brain) (t0 : Qc) :
  observe w = Some RUNNING →
  clock_time w = Some t0 →
  brains (self w) = Some {| active_brain := Some b |} →
  execute_outcome env = Returns b' →
  let w' := tick env w in
  ∃ t1, clock_after (clock_msgs env) (Some t0) = Some t1
  ∧ clock_time w' = Some t1
  ∧ thread (self w') = Alive
  ∧ brains (self w') = Some {| active_brain := Some b' |}
  ∧ ros_iterations_time (frame w')
    = ros_iterations_time (frame w) ++ [(t1 - t0)%Qc]
  ∧ brain_iterations_time (frame w')
    = brain_iterations_time (frame w)
      ++ [(ms_after_sleep env / Qc_of_Z 1000)%Qc]
  ∧ stopped_brain_metrics (frame w') = true
  ∧ execution_completed (self w') = false.
Proof.
  intros Hobs Hclk Hbr Hex. cbv zeta.
  destruct (clock_after_Some (clock_msgs env) t0) as [t1 Ht1]. exists t1.
  split; [exact Ht1|].
  enter_tick w env Hobs loop_state_running.
  rewrite Ht1. py_eval; repeat split; reflexivity.
Qed.

Lemma successful_iteration_records_samples_witness :
  ros_iterations_time (frame (tick (Scenario.decided 1) Scenario.resumed))
  = [(Scenario.q 1 - Scenario.q 0)%Qc]
  ∧ length (brain_iterations_time
              (frame (tick (Scenario.decided 1) Scenario.resumed))) = 1%nat.
Proof.
  destruct (successful_iteration_records_samples (Scenario.decided 1)
              Scenario.resumed Scenario.brain25 Scenario.brain25
              (Scenario.q 0))
    as (t1 & Ht1 & _ & _ & _ & Hr & Hb & _); [reflexivity..|].
  change (Some (Scenario.q 1) = Some t1) in Ht1. injection Ht1 as <-.
  rewrite Hr, Hb. split; reflexivity.
Defined.

(** X5. [run] catches [AttributeError] only: any other exception of
    [execute] leaves the loop and ends the thread, before the sleep and
    with no sample recorded, and nothing is written from then on. *)
Theorem uncaught_exception_ends_thread (env : TickEnv) (w : World)
    (b : Brain) (e : Exn) :
  observe w = Some RUNNING →
  brains (self w) = Some {| active_brain := Some b |} →
  execute_outcome env = Raises e →
  e ≠ AttributeError →
  let w' := tick env w in
  thread (self w') = Finished (Some e)
  ∧ out w' = out w
  ∧ brain_iterations_time (frame w') = brain_iterations_time (frame w)
  ∧ ros_iterations_time (frame w') = ros_iterations_time (frame w)
  ∧ ∀ acts, thread (self (run acts w')) = Finished (Some e)
            ∧ out (run acts w') = out w.
Proof.
  intros Hobs Hbr Hex Hne. cbv zeta.
  assert (H : thread (self (tick env w)) = Finished (Some e)
              ∧ out (tick env w) = out w
              ∧ brain_iterations_time (frame (tick env w))
                = brain_iterations_time (frame w)
              ∧ ros_iterations_time (frame (tick env w))
                = ros_iterations_time (frame w)).
  { enter_tick w env Hobs loop_state_running.
    destruct e; try congruence; py_eval; repeat split; reflexivity. }
  destruct H as (Hth & Hout & Hb & Hr).
  split; [exact Hth|]. split; [exact Hout|]. split; [exact Hb|].
  split; [exact Hr|].
  intros acts. destruct (run_finished acts _ _ Hth) as (H1 & H2 & _).
  split; [exact H1 | congruence].
Qed.

Lemma uncaught_exception_ends_thread_witness :
  thread (self (tick (Cases.crashing 1) Scenario.resumed))
  = Finished (Some OtherError)
  ∧ out (tick (Cases.crashing 1) Scenario.resumed) = out Scenario.resumed.
Proof.
  destruct (uncaught_exception_ends_thread (Cases.crashing 1) Scenario.resumed
              Scenario.brain25 OtherError)
    as (Hth & Hout & _); [reflexivity | reflexivity | reflexivity | discriminate |].
  split; [exact Hth | exact Hout].
Defined.

(** A mean that was computed is the mean of a list that holds
    something. *)
Lemma div_Ok_nonempty {A} (x a : Qc) (l : list A) :
  div x (len l) = Ok a → l ≠ [].
Proof.
  intros H ->. unfold div in H. rewrite is_zero_len in H. discriminate H.
Qed.

(** X6. The four ways in which a turn of the loop can end the thread
    with an exception, and no others: [execute] raises something other
    than [AttributeError] while RUNNING; the clock was not available when
    the turn started and the iteration was successful ([TypeError]); a
    summarization finds one of the sample lists empty
    ([ZeroDivisionError]); or [save_metrics] raises, in a summarization,
    an exception that [except Exception] does not catch. *)
Theorem loop_failure_modes (env : TickEnv) (w : World) (e : Exn) :
  thread (self w) = Alive →
  thread (self (tick env w)) = Finished (Some e) →
  kill_event (self w) = false
  ∧ ((stop_event (self w) = false
      ∧ execute_outcome env = Raises e ∧ e ≠ AttributeError)
     ∨ (e = TypeError ∧ clock_time w = None
        ∧ successful_iteration (frame (tick env w)) = true)
     ∨ (e = ZeroDivisionError ∧ stop_event (self w) = true
        ∧ stopped_brain_metrics (frame w) = true
        ∧ (brain_iterations_time (frame w) = []
           ∨ ros_iterations_time (frame w) = []))
     ∨ (stop_event (self w) = true
        ∧ stopped_brain_metrics (frame w) = true
        ∧ brain_iterations_time (frame w) ≠ []
        ∧ ros_iterations_time (frame w) ≠ []
        ∧ sink_escape env = Some e)).
Proof.
  intros Hth. destruct_world w. destruct_env env. py_proj. subst.
  unfold tick. rewrite iteration_unfold.
  py_eval; intros H; try discriminate H; injection H as <-.
  all: split; [reflexivity|].
  all: try match goal with
           | H : clock_after _ _ = None |- _ =>
               apply clock_after_None in H; first [discriminate H | subst]
           end.
  all: repeat match goal with
         | H : div _ (len ?l) = Raise _ |- _ =>
             is_var l;
             apply div_Raise in H; destruct H as [-> H];
             apply is_zero_spec in H; rewrite is_zero_len in H;
             destruct l; [|discriminate H]
         end.
  all: first
         [ solve [left; repeat split; first [reflexivity | discriminate]]
         | solve [right; left; repeat split; reflexivity]
         | solve [right; right; left; repeat split; auto]
         | solve [right; right; right;
                  repeat split;
                    first [ reflexivity
                          | eapply div_Ok_nonempty; eassumption ]] ].
Qed.

Lemma loop_failure_modes_witness :
  kill_event (self (run [Play; Play] Scenario.car)) = false.
Proof.
  exact (proj1 (loop_failure_modes (Scenario.decided 5)
                  (run [Play; Play] Scenario.car) TypeError
                  eq_refl eq_refl)).
Defined.

(** ** The period *)

Lemma sleeps_app es es' : sleeps (es ++ es') = sleeps es ++ sleeps es'.
Proof.
  induction es as [|e es IH]; [reflexivity|].
  destruct e; cbn [app sleeps]; rewrite IH; reflexivity.
Qed.

Lemma lt_Qclt (x y : Qc) : lt x y = true → (x < y)%Qc.
Proof.
  unfold lt. intros H. apply Qlt_alt.
  destruct (this x ?= this y)%Q; try discriminate H. reflexivity.
Qed.

Lemma thousand_nonzero : Qc_of_Z 1000 ≠ 0%Qc.
Proof. intros E. apply is_zero_spec in E. vm_compute in E. discriminate E. Qed.

(** The sleep of line 200 is positive and fills the period. *)
Lemma sleep_duration (ms : Qc) :
  lt ms TIME_CYCLE = true →
  (0 < (TIME_CYCLE - ms) / Qc_of_Z 1000)%Qc
  ∧ (ms / Qc_of_Z 1000 + (TIME_CYCLE - ms) / Qc_of_Z 1000
     = TIME_CYCLE / Qc_of_Z 1000)%Qc.
Proof.
  intros H. apply lt_Qclt in H. split.
  - unfold Qcdiv.
    replace 0%Qc with (0 * / Qc_of_Z 1000)%Qc by ring.
    apply Qcmult_lt_compat_r; [reflexivity|].
    apply Qclt_minus_iff in H. exact H.
  - field. exact thousand_nonzero.
Qed.

(** X7. The loop sleeps at most once per turn, and only to fill the
    period: a sleep is positive, and together with the time the iteration
    took it makes [TIME_CYCLE] milliseconds. A turn that keeps the thread
    alive sleeps exactly when the iteration took less than the period. *)
Theorem sleep_fills_period (env : TickEnv) (w : World) :
  ∃ ss, sleeps (out (tick env w)) = sleeps (out w) ++ ss
  ∧ (∀ s, s ∈ ss →
       (0 < s)%Qc
       ∧ (ms_before_sleep env / Qc_of_Z 1000 + s
          = TIME_CYCLE / Qc_of_Z 1000)%Qc)
  ∧ (thread (self (tick env w)) = Alive →
     ss = if lt (ms_before_sleep env) TIME_CYCLE
          then [((TIME_CYCLE - ms_before_sleep env) / Qc_of_Z 1000)%Qc]
          else []).
Proof.
  destruct_world w. destruct_env env. unfold tick. rewrite iteration_unfold.
  py_eval.
  all: rewrite ?sleeps_app; cbn [sleeps]; rewrite <- ?app_assoc; cbn [app].
  all: first [ exists []; split; [symmetry; apply app_nil_r|]
             | eexists; split; [reflexivity|] ].
  all: split;
    [ intros s Hs;
      first [ apply elem_of_nil in Hs; destruct Hs
            | apply list_elem_of_singleton in Hs; subst s;
              apply sleep_duration; assumption ]
    | intros Hal; first [ discriminate Hal | reflexivity ] ].
Qed.

Lemma sleep_fills_period_witness :
  ∃ ss, sleeps (out (tick (Scenario.decided 1) Scenario.resumed))
        = sleeps (out Scenario.resumed) ++ ss
        ∧ ss = [((TIME_CYCLE - Scenario.q 10) / Qc_of_Z 1000)%Qc].
Proof.
  destruct (sleep_fills_period (Scenario.decided 1) Scenario.resumed)
    as (ss & H1 & _ & H3).
  exists ss. split; [exact H1|].
  apply H3. vm_compute. reflexivity.
Defined.

(** ** The summary *)

Ltac resolve_means :=
  repeat match goal with
         | H : div _ (len (_ :: _)) = Raise _ |- _ =>
             rewrite div_len in H; discriminate H
         | H : div _ (len (_ :: _)) = Ok _ |- _ =>
             rewrite div_len in H; injection H as <-
         end.

(** X8. What a summarization reports when both sample lists hold
    something: the means are the sums over the lengths, and the summary
    is handed to the controller exactly when the controller has the
    attribute [experiment_metrics_filename], together with the inference
    statistics. An exception of [save_metrics] that [except Exception]
    catches is logged and goes no further: the thread stays alive,
    [brain_iterations_time] is emptied and [execution_completed] is set.
    An exception that [except Exception] does not catch leaves [run] at
    the call: it ends the thread with nothing logged after the call, no
    sleep, [brain_iterations_time] as it was and [execution_completed]
    clear. *)
Theorem summary_report (env : TickEnv) (w : World) :
  observe w = Some PAUSED →
  stopped_brain_metrics (frame w) = true →
  brain_iterations_time (frame w) ≠ [] →
  ros_iterations_time (frame w) ≠ [] →
  let bit := brain_iterations_time (frame w) in
  let rit := ros_iterations_time (frame w) in
  let w' := tick env w in
  ∃ inf, (inference_statistics w).1 = Ok inf
  ∧ stopped_brain_metrics (frame w') = false
  ∧ match sink_escape env with
    | None =>
        out w'
        = out (inference_statistics w).2
          ++ [Info (Mean_brain_iteration_time (sum bit / len bit));
              Info (Mean_ROS_iteration_time (sum rit / len rit));
              Info (Has_experiment_metrics_filename
                      (has_metrics_filename env))]
          ++ (if has_metrics_filename env then
                [Info Saving_metrics_to_ROS_bag;
                 SaveMetrics (sum bit / len bit) (inf_mean_inference_time inf)
                   (inf_frame_rate inf) (inf_gpu_inference inf)
                   (inf_first_image inf)]
                ++ match save_metrics_outcome env with
                   | Some e => [Info Empty_ROS_bag; Error e]
                   | None => []
                   end
              else [])
          ++ nap env
        ∧ thread (self w') = Alive
        ∧ execution_completed (self w') = true
        ∧ brain_iterations_time (frame w') = []
    | Some e =>
        out w'
        = out (inference_statistics w).2
          ++ [Info (Mean_brain_iteration_time (sum bit / len bit));
              Info (Mean_ROS_iteration_time (sum rit / len rit));
              Info (Has_experiment_metrics_filename true);
              Info Saving_metrics_to_ROS_bag;
              SaveMetrics (sum bit / len bit) (inf_mean_inference_time inf)
                (inf_frame_rate inf) (inf_gpu_inference inf)
                (inf_first_image inf)]
        ∧ thread (self w') = Finished (Some e)
        ∧ execution_completed (self w') = false
        ∧ brain_iterations_time (frame w') = bit
    end.
Proof.
  intros Hobs Hsbm Hbit Hrit. cbv zeta. unfold nap.
  enter_tick w env Hobs loop_state_paused.
  destruct bit as [|x bit]; [congruence|].
  destruct rit as [|y rit]; [congruence|].
  py_eval.
  all: resolve_means.
  all: eexists; split; [reflexivity|].
  all: rewrite <- ?app_assoc; cbn [app]; repeat split; reflexivity.
Qed.

Lemma summary_report_witness :
  thread (self (tick (Scenario.decided 3) Cases.paused_after_two)) = Alive
  ∧ brain_iterations_time
      (frame (tick (Scenario.decided 3) Cases.paused_after_two)) = [].
Proof.
  destruct (summary_report (Scenario.decided 3) Cases.paused_after_two)
    as (inf & _ & _ & Hm);
    [reflexivity | reflexivity | discriminate | discriminate |].
  change (sink_escape (Scenario.decided 3)) with (@None Exn) in Hm.
  cbv iota in Hm. destruct Hm as (_ & Hth & _ & Hb).
  split; [exact Hth | exact Hb].
Defined.

(** X9. When the pilot's controller is the CARLA controller, whose
    [save_metrics] takes no argument, the call of line 183 with its five
    arguments raises [TypeError] whatever the body of [save_metrics]
    would do: every summary that is handed over ends with 'Empty ROS bag'
    and the [TypeError] in the log, and the loop goes on. *)
Theorem carla_save_metrics_rejects_call (env : TickEnv) (w : World)
    (body : option Exn) :
  observe w = Some PAUSED →
  stopped_brain_metrics (frame w) = true →
  brain_iterations_time (frame w) ≠ [] →
  ros_iterations_time (frame w) ≠ [] →
  has_metrics_filename env = true →
  save_metrics_outcome env = Control.save_metrics Control.pilot_call_nargs body →
  let w' := tick env w in
  ∃ events, out w'
    = out w ++ events ++ [Info Empty_ROS_bag; Error TypeError] ++ nap env
  ∧ length events = 7%nat
  ∧ thread (self w') = Alive.
Proof.
  intros Hobs Hsbm Hbit Hrit Hhas Hsink. cbv zeta. unfold nap.
  enter_tick w env Hobs loop_state_paused.
  destruct bit as [|x bit]; [congruence|].
  destruct rit as [|y rit]; [congruence|].
  cbv [Control.save_metrics Control.pilot_call_nargs].
  py_eval.
  all: resolve_means.
  all: eexists [_; _; _; _; _; _; _].
  all: rewrite <- ?app_assoc; cbn [app]; repeat split; reflexivity.
Qed.

Lemma carla_save_metrics_rejects_call_witness :
  thread (self (tick (Cases.delivering 3) Cases.paused_after_two)) = Alive.
Proof.
  destruct (carla_save_metrics_rejects_call (Cases.delivering 3)
              Cases.paused_after_two None)
    as (events & _ & _ & Hth);
    [reflexivity | reflexivity | discriminate | discriminate
    | reflexivity | reflexivity |].
  exact Hth.
Defined.

(** ** The inference samples *)

Lemma length_slice_trim {A} (l : list A) :
  length (slice 10 (-10) l) = (length l - 20)%nat.
Proof.
  unfold slice, clip. cbn [Z.ltb Z.compare].
  rewrite length_take, length_drop. lia.
Qed.

(** The inference statistics leave the brain with its samples trimmed,
    whether they go through or fall back. *)
Lemma inference_statistics_brain w b ts :
  brains (self w) = Some {| active_brain := Some b |} →
  inference_times b = Some ts →
  ∃ b', brains (self (inference_statistics w).2)
        = Some {| active_brain := Some b' |}
        ∧ inference_times b' = Some (slice 10 (-10) ts).
Proof.
  intros Hbr Hts. destruct_world w. destruct b as [ts0 g f]. py_proj. subst.
  py_eval; eexists; split; reflexivity.
Qed.

(** X10. Every summarization cuts ten samples from each end of the
    brain's [inference_times] and stores the rest back, also when its
    statistics fall back to zeros: with no iteration in between, [k]
    summarizations leave [len - 20 k] samples (none, once that is
    negative). *)
Theorem inference_trim_is_cumulative (w : World) (b : Brain) (ts : list Qc)
    (k : nat) :
  brains (self w) = Some {| active_brain := Some b |} →
  inference_times b = Some ts →
  inference_samples (self (inference_statistics w).2)
  = Some (slice 10 (-10) ts)
  ∧ ∃ ts', inference_samples (self (inference_statistics_times k w)) = Some ts'
           ∧ length ts' = (length ts - 20 * k)%nat.
Proof.
  intros Hbr Hts. split.
  - destruct (inference_statistics_brain w b ts Hbr Hts) as (b' & Hb' & Hts').
    unfold inference_samples. rewrite Hb'. cbn. exact Hts'.
  - revert w b ts Hbr Hts. induction k as [|k IH]; intros w b ts Hbr Hts.
    + exists ts. split; [|lia].
      unfold inference_samples. cbn [inference_statistics_times].
      rewrite Hbr. cbn. exact Hts.
    + destruct (inference_statistics_brain w b ts Hbr Hts) as (b' & Hb' & Hts').
      destruct (IH _ b' _ Hb' Hts') as (ts' & H1 & H2).
      exists ts'. split; [exact H1|].
      rewrite H2, length_slice_trim. lia.
Qed.

Lemma inference_trim_is_cumulative_witness :
  inference_samples (self (inference_statistics Scenario.car).2)
  = Some (slice 10 (-10) (Scenario.q <$> seqZ 1 25)).
Proof.
  exact (proj1 (inference_trim_is_cumulative Scenario.car Scenario.brain25
                  (Scenario.q <$> seqZ 1 25) 1 eq_refl eq_refl)).
Defined.

(** ** What holds along every run *)

Lemma step_consistent a w :
  consistent (frame w) → consistent (frame (step a w)).
Proof.
  unfold consistent. intros [H1 H2].
  destruct a as [env| | | |t]; unfold step.
  - unfold tick. rewrite iteration_unfold.
    destruct_world w. destruct_env env. py_proj.
    py_eval.
    all: try (specialize (H1 eq_refl); discriminate H1).
    all: split; [intros; first [assumption | reflexivity | discriminate | auto]|].
    all: rewrite ?length_app; cbn [length]; lia.
  - destruct_world w. py_proj. destruct th; py_eval; split; auto.
  - destruct_world w. py_proj. py_eval; split; auto.
  - destruct_world w. py_proj. py_eval; split; auto.
  - destruct_world w. py_proj. py_eval; split; auto.
Qed.

Lemma run_consistent acts w :
  consistent (frame w) → consistent (frame (run acts w)).
Proof.
  revert w. induction acts as [|a acts IH]; intros w H; [exact H|].
  rewrite run_cons. apply IH, step_consistent, H.
Qed.

Lemma new_consistent brain_path env :
  consistent (frame (new brain_path env).2).
Proof. unfold consistent. py_eval; split; auto. Qed.

(** X11. Along every run of a constructed pilot, a turn of the loop
    that finds the state PAUSED records no sample: the ROS durations
    are left as they are, the wall durations are left as they are or
    emptied by the summarization, and [successful_iteration] is clear
    afterwards, so that the flag of an earlier RUNNING turn is never
    acted on while PAUSED. *)
Theorem paused_turn_records_no_sample (brain_path : string) (ienv : InitEnv)
    (w0 : World) (acts : list Action) (env : TickEnv) :
  new brain_path ienv = (Ok tt, w0) →
  let w := run acts w0 in
  observe w = Some PAUSED →
  let w' := tick env w in
  ros_iterations_time (frame w') = ros_iterations_time (frame w)
  ∧ (brain_iterations_time (frame w') = brain_iterations_time (frame w)
     ∨ brain_iterations_time (frame w') = [])
  ∧ successful_iteration (frame w') = false.
Proof.
  intros Hnew. cbv zeta.
  assert (Hc : consistent (frame (run acts w0))).
  { apply run_consistent.
    pose proof (new_consistent brain_path ienv) as H. rewrite Hnew in H.
    exact H. }
  revert Hc. generalize (run acts w0). clear. intros w [H1 _] Hobs.
  enter_tick w env Hobs loop_state_paused.
  destruct sbm.
  - py_eval; repeat split; auto.
  - specialize (H1 eq_refl). subst. py_eval; repeat split; auto.
Qed.

Lemma paused_turn_records_no_sample_witness :
  let w := run [Play; Play; Clock (Scenario.q 0); Tick (Scenario.decided 1);
                Tick (Scenario.decided 2); Stop] Scenario.car in
  observe w = Some PAUSED
  ∧ ros_iterations_time (frame (tick (Scenario.decided 3) w))
    = ros_iterations_time (frame w).
Proof.
  cbv zeta.
  assert (Hobs : observe
    (run [Play; Play; Clock (Scenario.q 0); Tick (Scenario.decided 1);
          Tick (Scenario.decided 2); Stop] Scenario.car) = Some PAUSED)
    by reflexivity.
  split; [exact Hobs|].
  exact (proj1 (paused_turn_records_no_sample "brains/f1/brain.py"
                  Scenario.collaborators Scenario.car
                  [Play; Play; Clock (Scenario.q 0); Tick (Scenario.decided 1);
                   Tick (Scenario.decided 2); Stop]
                  (Scenario.decided 3) eq_refl Hobs)).
Defined.

(** X12. Along every run of a constructed pilot, the ROS durations held
    are at least as many as the wall durations held: the mean ROS
    iteration time of a summary never averages over fewer samples than
    the mean brain iteration time. *)
Theorem samples_paired (brain_path : string) (ienv : InitEnv) (w0 : World)
    (acts : list Action) :
  new brain_path ienv = (Ok tt, w0) →
  (length (brain_iterations_time (frame (run acts w0)))
   ≤ length (ros_iterations_time (frame (run acts w0))))%nat.
Proof.
  intros Hnew.
  pose proof (new_consistent brain_path ienv) as H. rewrite Hnew in H.
  exact (proj2 (run_consistent acts w0 H)).
Qed.

Lemma samples_paired_witness :
  (length (brain_iterations_time
             (frame (run [Play; Play; Clock (Scenario.q 0);
                          Tick (Scenario.decided 1)] Scenario.car)))
   ≤ length (ros_iterations_time
               (frame (run [Play; Play; Clock (Scenario.q 0);
                            Tick (Scenario.decided 1)] Scenario.car))))%nat.
Proof.
  exact (samples_paired "brains/f1/brain.py" Scenario.collaborators Scenario.car
           [Play; Play; Clock (Scenario.q 0); Tick (Scenario.decided 1)]
           eq_refl).
Defined.

(** ** The end of the loop *)

Lemma step_killed a w :
  kill_event (self w) = true →
  kill_event (self (step a w)) = true
  ∧ brains (self (step a w)) = brains (self w)
  ∧ summaries (out (step a w)) = summaries (out w)
  ∧ sleeps (out (step a w)) = sleeps (out w)
  ∧ (∀ e, thread (self (step a w)) = Finished (Some e) →
          thread (self w) = Finished (Some e)).
Proof.
  intros Hk. destruct a as [env| | | |t]; unfold step.
  - unfold tick. destruct_world w. py_proj. subst.
    destruct th; py_run;
      rewrite ?summaries_app, ?sleeps_app; cbn [summaries is_summary sleeps];
      rewrite ?app_nil_r, ?Nat.add_0_r;
      repeat split; try reflexivity; intros e H; try discriminate H; exact H.
  - destruct_world w. py_proj. subst.
    destruct th; py_eval;
      rewrite ?summaries_app, ?sleeps_app; cbn [summaries is_summary sleeps];
      rewrite ?app_nil_r, ?Nat.add_0_r;
      repeat split; try reflexivity; intros e H; try discriminate H; exact H.
  - destruct_world w. py_proj. subst.
    py_eval; repeat split; try reflexivity; intros e H; exact H.
  - destruct_world w. py_proj. subst.
    py_eval; repeat split; try reflexivity; intros e H; exact H.
  - destruct_world w. py_proj. subst.
    py_eval; repeat split; try reflexivity; intros e H; exact H.
Qed.

Lemma run_killed acts w :
  kill_event (self w) = true →
  kill_event (self (run acts w)) = true
  ∧ brains (self (run acts w)) = brains (self w)
  ∧ summaries (out (run acts w)) = summaries (out w)
  ∧ sleeps (out (run acts w)) = sleeps (out w)
  ∧ (∀ e, thread (self (run acts w)) = Finished (Some e) →
          thread (self w) = Finished (Some e)).
Proof.
  revert w. induction acts as [|a acts IH]; intros w Hk.
  { repeat split; auto. }
  rewrite run_cons.
  destruct (step_killed a w Hk) as (Hk1 & Hb1 & Hs1 & Hz1 & Ht1).
  destruct (IH _ Hk1) as (Hk2 & Hb2 & Hs2 & Hz2 & Ht2).
  repeat split; try congruence. intros e H. apply Ht1, Ht2, H.
Qed.

(** X13. The kill event is final. Once it is set, no command clears
    it; a running loop ends on its next turn, unregistering the clock
    subscription, without a summary and whatever the stop event says;
    and from then on the brain is never executed, nothing is summarized,
    the loop never sleeps and no exception ends the thread. *)
Theorem killed_is_final (w : World) (acts : list Action) :
  kill_event (self w) = true →
  let w' := run acts w in
  kill_event (self w') = true
  ∧ brains (self w') = brains (self w)
  ∧ summaries (out w') = summaries (out w)
  ∧ sleeps (out w') = sleeps (out w)
  ∧ (∀ e, thread (self w') = Finished (Some e) →
          thread (self w) = Finished (Some e))
  ∧ (thread (self w) = Alive →
     ∀ env, thread (self (tick env w)) = Finished None
            ∧ out (tick env w) = out w ++ [Unregister; Info Pilot_killed]).
Proof.
  intros Hk. cbv zeta.
  destruct (run_killed acts w Hk) as (H1 & H2 & H3 & H4 & H5).
  repeat split; try assumption.
  - unfold tick. rewrite H, Hk. reflexivity.
  - unfold tick. rewrite H, Hk. destruct_world w. py_run.
    rewrite <- app_assoc. reflexivity.
Qed.

Lemma killed_is_final_witness :
  let w := run [Play; Play; Clock (Scenario.q 0); Tick (Scenario.decided 1);
                Kill] Scenario.car in
  kill_event (self w) = true
  ∧ thread (self (tick (Scenario.decided 2) w)) = Finished None.
Proof.
  cbv zeta.
  assert (Hk : kill_event (self
    (run [Play; Play; Clock (Scenario.q 0); Tick (Scenario.decided 1); Kill]
       Scenario.car)) = true) by reflexivity.
  split; [exact Hk|].
  destruct (killed_is_final _ [] Hk) as (_ & _ & _ & _ & _ & H).
  exact (proj1 (H eq_refl (Scenario.decided 2))).
Defined.

Lemma step_finished_frame a w x :
  thread (self w) = Finished x →
  frame (step a w) = frame w ∧ brains (self (step a w)) = brains (self w).
Proof.
  intros Hth. destruct a as [env| | | |t]; unfold step.
  - unfold tick. rewrite Hth. auto.
  - destruct_world w. py_proj. subst. py_eval; auto.
  - destruct_world w. py_proj. subst. py_eval; auto.
  - destruct_world w. py_proj. subst. py_eval; auto.
  - destruct_world w. py_proj. subst. py_eval; auto.
Qed.

(** X14. A thread that is over stays over. Whatever ended it, no
    command and no clock message brings the loop back: the locals of
    [run] and the brain are left as they were, nothing more is written,
    and [play] raises [RuntimeError], a thread being started at most
    once. *)
Theorem finished_is_final (w : World) (x : option Exn) (acts : list Action) :
  thread (self w) = Finished x →
  let w' := run acts w in
  thread (self w') = Finished x
  ∧ out w' = out w
  ∧ frame w' = frame w
  ∧ brains (self w') = brains (self w)
  ∧ play w' = (Raise RuntimeError, w').
Proof.
  intros Hth. cbv zeta.
  assert (H : thread (self (run acts w)) = Finished x
              ∧ out (run acts w) = out w
              ∧ frame (run acts w) = frame w
              ∧ brains (self (run acts w)) = brains (self w)).
  { revert w Hth. induction acts as [|a acts IH]; intros w Hth; [auto|].
    rewrite run_cons.
    destruct (step_finished a w x Hth) as [Hth' Hout].
    destruct (step_finished_frame a w x Hth) as [Hf Hb].
    destruct (IH _ Hth') as (H1 & H2 & H3 & H4).
    repeat split; congruence. }
  destruct H as (H1 & H2 & H3 & H4). repeat split; try assumption.
  revert H1. generalize (run acts w). clear. intros w Hth.
  destruct_world w. py_proj. subst. reflexivity.
Qed.

Lemma finished_is_final_witness :
  let w := tick (Cases.crashing 1) Scenario.resumed in
  thread (self w) = Finished (Some OtherError)
  ∧ thread (self (run [Stop; Play; Tick (Scenario.decided 2)] w))
    = Finished (Some OtherError).
Proof.
  cbv zeta.
  assert (Hth : thread (self (tick (Cases.crashing 1) Scenario.resumed))
                = Finished (Some OtherError)) by (vm_compute; reflexivity).
  split; [exact Hth|].
  exact (proj1 (finished_is_final _ _ [Stop; Play; Tick (Scenario.decided 2)]
                  Hth)).
Defined.

(** X15. The loop only reads the stop and kill events: whatever its
    turns meet, exceptions included, a run of turns alone leaves the loop
    state and the actuators as they were. *)
Theorem loop_reads_only (envs : list TickEnv) (w : World) :
  loop_state (self (run (turns envs) w)) = loop_state (self w)
  ∧ actuators (self (run (turns envs) w)) = actuators (self w).
Proof.
  revert w. induction envs as [|env envs IH]; intros w; [auto|].
  unfold turns. cbn [fmap list_fmap]. rewrite run_cons.
  fold (turns envs). destruct (IH (step (Tick env) w)) as [H1 H2].
  rewrite H1, H2. cbn [step].
  destruct (tick_self env w) as (Hs & Hk & Ha).
  unfold loop_state. rewrite Hs, Hk, Ha. auto.
Qed.

Lemma stop_play_alive c w :
  thread (self w) = Alive →
  step (command c) w = with_self (set_stop_event (stop_flag c)) w.
Proof.
  intros Hth. destruct_world w. py_proj. subst. destruct c; reflexivity.
Qed.

(** X16. On a running thread, [stop] and [play] only write the stop
    event: after any sequence of them the pilot is as the last one alone
    would have left it. *)
Theorem last_command_wins (w : World) (cs : list StopPlay) (c : StopPlay) :
  thread (self w) = Alive →
  run (commands (cs ++ [c])) w = with_self (set_stop_event (stop_flag c)) w.
Proof.
  revert w. induction cs as [|c0 cs IH]; intros w Hth.
  - cbn. apply stop_play_alive, Hth.
  - cbn [app]. unfold commands. cbn [fmap list_fmap]. rewrite run_cons.
    fold (commands (cs ++ [c])).
    rewrite (stop_play_alive c0 w Hth).
    rewrite IH by (destruct w as [[]]; exact Hth).
    destruct w as [[]]. reflexivity.
Qed.

Lemma last_command_wins_witness :
  run (commands ([DoStop; DoPlay; DoPlay] ++ [DoStop])) (run [Play] Scenario.car)
  = with_self (set_stop_event true) (run [Play] Scenario.car).
Proof.
  exact (last_command_wins (run [Play] Scenario.car)
           [DoStop; DoPlay; DoPlay] DoStop eq_refl).
Defined.

(** ** The controller's handle on the pilot *)

Ltac ctl_run :=
  cbv [Control.on_pilot Control.stop_pilot Control.pause_pilot
       Control.resume_pilot Control.reset_carla_simulation
       Control.pause_carla_simulation Control.unpause_carla_simulation
       Control.pilot_reload_brain Control.reload_brain
       Control.initialize_robot Control.set_pilot Control.construct
       Control.popen Control.stop_record Control.record_rosbag
       Control.info Control.add_log Control.spawn_command
       Control.set_pilot_field Control.set_pilot_start_time
       Control.set_start_time Control.set_recording Control.set_rosbag_proc
       Control.pilot Control.pilot_start_time Control.start_time
       Control.recording Control.rosbag_proc Control.spawned Control.log
       Control.init];
  py_run.


Ltac destruct_controller c :=
  let p := fresh "plt" in let pst := fresh "pst" in
  let st := fresh "st" in let rcd := fresh "rcd" in
  let proc := fresh "proc" in let sp := fresh "spw" in
  let lg := fresh "lg" in
  destruct c as [p pst st rcd proc sp lg].

Ltac ctl_proj :=
  cbn [Control.pilot Control.pilot_start_time Control.start_time
       Control.recording Control.rosbag_proc Control.spawned Control.log] in *.

(** X17. A controller holds no pilot until one registers with
    [set_pilot]: until then each of its pilot commands raises
    [AttributeError]. The commands that log or take the time first have
    done so when they raise. *)
Theorem commands_need_pilot (c : Control.Controller) (now now' : Qc)
    (brain : string) (after : Brains) (env : InitEnv) :
  Control.pilot c = None →
  Control.stop_pilot c = (Raise AttributeError, c)
  ∧ Control.pause_pilot c = (Raise AttributeError, c)
  ∧ Control.resume_pilot now now' c
    = (Raise AttributeError, Control.set_start_time (Some now) c)
  ∧ Control.pause_carla_simulation c
    = (Raise AttributeError, Control.add_log Control.Pausing_simulation c)
  ∧ Control.unpause_carla_simulation c
    = (Raise AttributeError, Control.add_log Control.Resuming_simulation c)
  ∧ Control.reload_brain brain after c
    = (Raise AttributeError, Control.add_log (Control.Reloading_brain brain) c)
  ∧ Control.initialize_robot env c = (Raise AttributeError, c).
Proof.
  intros H. destruct_controller c. ctl_proj. subst.
  repeat split; reflexivity.
Qed.

Lemma commands_need_pilot_witness :
  Control.stop_pilot Control.init = (Raise AttributeError, Control.init).
Proof.
  exact (proj1 (commands_need_pilot Control.init 0%Qc 0%Qc EmptyString
                  (built_brains Scenario.collaborators) Scenario.collaborators
                  eq_refl)).
Defined.

(** X18. [stop_pilot] sets the kill event of the pilot directly: unlike
    [Pilot.kill] it does not touch the actuators, so it also ends the
    loop of a pilot without actuators, whose [kill] raises. A running
    loop ends on its next turn, and the kill event stays set whatever
    happens afterwards. *)
Theorem stop_pilot_bypasses_actuators (c : Control.Controller) (w : World) :
  Control.pilot c = Some w →
  ∃ w', Control.stop_pilot c = (Ok tt, Control.set_pilot_field (Some w') c)
  ∧ kill_event (self w') = true
  ∧ actuators (self w') = actuators (self w)
  ∧ (actuators (self w) = None → (kill w).1 = Raise AttributeError)
  ∧ (thread (self w) = Alive →
     ∀ env, thread (self (tick env w')) = Finished None)
  ∧ ∀ acts, kill_event (self (run acts w')) = true.
Proof.
  intros H. exists (with_self (set_kill_event true) w).
  split; [destruct_controller c; ctl_proj; subst; destruct_world w; reflexivity|].
  split; [destruct_world w; reflexivity|].
  split; [destruct_world w; reflexivity|].
  split; [intros Ha; destruct_world w; py_proj; subst; reflexivity|].
  split.
  - intros Hth env. destruct_world w. py_proj. subst. reflexivity.
  - intros acts. apply run_killed. destruct_world w. reflexivity.
Qed.

Lemma stop_pilot_bypasses_actuators_witness :
  ∃ w', Control.stop_pilot Cases.with_drone
        = (Ok tt, Control.set_pilot_field (Some w') Cases.with_drone)
        ∧ kill_event (self w') = true.
Proof.
  destruct (stop_pilot_bypasses_actuators Cases.with_drone Scenario.drone
              eq_refl) as (w' & H1 & H2 & _).
  exists w'. split; [exact H1 | exact H2].
Defined.

(** X19. [resume_pilot] clears the stop event and takes the time, and
    does not start the thread. On a pilot whose thread was not started
    the loop still does nothing, and the first [play] then starts it
    RUNNING; on a running thread [resume_pilot] leaves the pilot as
    [play] does. *)
Theorem resume_pilot_does_not_start (c : Control.Controller) (w : World)
    (now now' : Qc) :
  Control.pilot c = Some w →
  let w' := with_self (set_stop_event false) w in
  Control.resume_pilot now now' c
  = (Ok tt,
     Control.set_pilot_field (Some w')
       (Control.set_pilot_start_time (Some now')
          (Control.set_start_time (Some now) c)))
  ∧ thread (self w') = thread (self w)
  ∧ (thread (self w) = NotStarted →
     (∀ env, tick env w' = w')
     ∧ (kill_event (self w) = false → observe (step Play w') = Some RUNNING))
  ∧ (thread (self w) = Alive → w' = (play w).2).
Proof.
  intros H. cbv zeta.
  split; [destruct_controller c; ctl_proj; subst; destruct_world w; reflexivity|].
  split; [destruct_world w; reflexivity|].
  split.
  - intros Hth. split.
    + intros env. destruct_world w. py_proj. subst. reflexivity.
    + intros Hk. destruct_world w. py_proj. subst. reflexivity.
  - intros Hth. destruct_world w. py_proj. subst. reflexivity.
Qed.

Lemma resume_pilot_does_not_start_witness :
  thread (self (with_self (set_stop_event false) Scenario.car)) = NotStarted
  ∧ observe (step Play (with_self (set_stop_event false) Scenario.car))
    = Some RUNNING.
Proof.
  destruct (resume_pilot_does_not_start Cases.with_car Scenario.car 0%Qc 0%Qc
              eq_refl) as (_ & Hth & Hns & _).
  split; [exact Hth|].
  exact (proj2 (Hns eq_refl) eq_refl).
Defined.

(** X20. The controller's [reload_brain] pauses the pilot before it
    reloads: the stop event is set whether the reload goes through or
    raises, so a running loop finds PAUSED on its next turn. With a
    brains handler the brain is replaced; without one the call raises
    [AttributeError] and the pilot stays paused. Nothing else of the
    pilot changes. *)
Theorem reload_brain_pauses (c : Control.Controller) (w : World)
    (brain : string) (after : Brains) :
  Control.pilot c = Some w →
  let r := Control.reload_brain brain after c in
  ∃ w', Control.pilot r.2 = Some w'
  ∧ Control.log r.2 = Control.log c ++ [Control.Reloading_brain brain]
  ∧ stop_event (self w') = true
  ∧ kill_event (self w') = kill_event (self w)
  ∧ thread (self w') = thread (self w)
  ∧ frame w' = frame w ∧ out w' = out w
  ∧ match brains (self w) with
    | Some _ => r.1 = Ok tt ∧ brains (self w') = Some after
    | None => r.1 = Raise AttributeError ∧ brains (self w') = None
    end
  ∧ (thread (self w) = Alive → kill_event (self w) = false →
     observe w' = Some PAUSED).
Proof.
  intros H. cbv zeta. destruct_controller c. ctl_proj. subst.
  destruct_world w. unfold observe, loop_state.
  destruct brs; ctl_run; eexists; (split; [reflexivity|]);
    repeat split; try reflexivity;
    intros Hth Hk; py_proj; subst; reflexivity.
Qed.

Lemma reload_brain_pauses_witness :
  ∃ w', Control.pilot
          (Control.reload_brain "brains/f1/other.py"
             {| active_brain := Some Scenario.brain20 |} Cases.with_car).2
        = Some w'
        ∧ stop_event (self w') = true.
Proof.
  destruct (reload_brain_pauses Cases.with_car Scenario.car
              "brains/f1/other.py" {| active_brain := Some Scenario.brain20 |}
              eq_refl) as (w' & H1 & _ & H2 & _).
  exists w'. split; [exact H1 | exact H2].
Defined.



(** ** The rosbag recorder *)

Lemma record_rosbag_times_S n topics name c :
  Control.record_rosbag_times (S n) topics name c
  = match Control.record_rosbag topics name None n c with
    | (Ok _, c') => Control.record_rosbag_times n topics name c'
    | (Raise e, c') => (Raise e, c')
    end.
Proof. reflexivity. Qed.

(** A recorder that is not recording starts one, whatever it recorded
    before. *)
Lemma record_rosbag_starts topics name pid c :
  Control.recording c = false →
  Control.record_rosbag topics name None pid c
  = (Ok tt,
     Control.set_rosbag_proc (Some pid)
       (Control.spawn_command (Control.Rosbag_record name topics)
          (Control.set_recording true
             (Control.add_log (Control.Recording_bag_at name) c)))).
Proof.
  intros H. destruct_controller c. ctl_proj. subst. reflexivity.
Qed.

(** A recorder that is recording a bag stops it. *)
Lemma record_rosbag_stops topics name pid p c :
  Control.recording c = true →
  Control.rosbag_proc c = Some p →
  Control.record_rosbag topics name None pid c
  = (Ok tt,
     Control.spawn_command Control.Rosnode_kill_behav_bag
       (Control.set_recording false
          (Control.add_log Control.Stopping_bag_recording
             (Control.add_log Control.Rosbag_already_recording c)))).
Proof.
  intros H1 H2. destruct_controller c. ctl_proj. subst. reflexivity.
Qed.

Lemma record_rosbag_times_spec n topics name :
  ∀ c, Control.recording c = false →
    let r := Control.record_rosbag_times n topics name c in
    r.1 = Ok tt
    ∧ Control.recording r.2 = Nat.odd n
    ∧ Control.spawned r.2 = Control.spawned c ++ Control.toggled n topics name
    ∧ (n ≠ 0%nat ∨ Control.rosbag_proc c ≠ None →
       Control.rosbag_proc r.2 ≠ None)
    ∧ Control.pilot r.2 = Control.pilot c.
Proof.
  induction n as [n IH] using lt_wf_ind. intros c Hrec. cbv zeta.
  destruct n as [|[|n]].
  - cbn [Control.record_rosbag_times]. destruct_controller c. ctl_proj.
    subst. ctl_run.
    split; [reflexivity|]. split; [reflexivity|].
    split; [symmetry; apply app_nil_r|]. split; [|reflexivity].
    intros [H|H]; [congruence | exact H].
  - rewrite record_rosbag_times_S, record_rosbag_starts by exact Hrec.
    cbn [Control.record_rosbag_times]. destruct_controller c.
    repeat split; try reflexivity. intros _. discriminate.
  - rewrite record_rosbag_times_S, record_rosbag_starts by exact Hrec.
    rewrite record_rosbag_times_S.
    rewrite (record_rosbag_stops topics name n (S n))
      by (destruct_controller c; reflexivity).
    match goal with
    | |- context [Control.record_rosbag_times n topics name ?c2] =>
        assert (H2 : Control.recording c2 = false)
          by (destruct_controller c; reflexivity);
        assert (Hs : Control.spawned c2
                     = Control.spawned c
                       ++ [Control.Rosbag_record name topics;
                           Control.Rosnode_kill_behav_bag])
          by (destruct_controller c; cbn; rewrite <- app_assoc; reflexivity);
        assert (Hp : Control.rosbag_proc c2 ≠ None)
          by (destruct_controller c; discriminate);
        assert (Hpl : Control.pilot c2 = Control.pilot c)
          by (destruct_controller c; reflexivity);
        destruct (IH n ltac:(lia) c2 H2) as (I1 & I2 & I3 & I4 & I5)
    end.
    split; [exact I1|]. split; [rewrite I2; reflexivity|].
    split; [rewrite I3, Hs, <- app_assoc; reflexivity|].
    split; [intros _; apply I4; right; exact Hp|].
    rewrite I5. exact Hpl.
Qed.

(** X22. [record_rosbag] is a toggle. Called [n] times in a row on a
    fresh controller, with the operating system starting every process,
    it never raises; it is recording afterwards exactly when [n] is odd;
    and the processes it started are, in turn, a recording and the kill
    of the recording node. *)
Theorem record_rosbag_toggles (n : nat) (topics : list string) (name : string) :
  let r := Control.record_rosbag_times n topics name Control.init in
  r.1 = Ok tt
  ∧ Control.recording r.2 = Nat.odd n
  ∧ Control.spawned r.2 = Control.toggled n topics name
  ∧ length (Control.spawned r.2) = n.
Proof.
  cbv zeta.
  destruct (record_rosbag_times_spec n topics name Control.init eq_refl)
    as (H1 & H2 & H3 & _).
  cbn [Control.spawned Control.init app] in H3.
  split; [exact H1|]. split; [exact H2|]. split; [exact H3|].
  rewrite H3. clear. induction n as [n IH] using lt_wf_ind.
  destruct n as [|[|n]]; [reflexivity | reflexivity |].
  cbn [Control.toggled length]. rewrite IH by lia. reflexivity.
Qed.

(** X23. A recording that fails to start wedges the recorder. The
    recording flag is set before the log files are opened and the process
    is started, and [rosbag_proc] is assigned only afterwards and not
    initialised by the constructor: when the operating system refuses,
    the controller is left recording with no process. In that state every
    later [record_rosbag] and [stop_record] raises [AttributeError] and
    leaves the state as it is, so the recorder never recovers; and
    [stop_record] on a fresh controller raises [AttributeError] instead of
    logging that no bag is recording. *)
Theorem failed_start_wedges_recorder (topics : list string) (name : string)
    (e : Exn) (pid : nat) :
  let r := Control.record_rosbag topics name (Some e) pid Control.init in
  r.1 = Raise e
  ∧ Control.recording r.2 = true
  ∧ Control.rosbag_proc r.2 = None
  ∧ Control.spawned r.2 = []
  ∧ (∀ io pid', Control.stop_record io pid' Control.init
                = (Raise AttributeError, Control.init))
  ∧ ∀ c, Control.recording c = true → Control.rosbag_proc c = None →
      ∀ topics' name' io pid',
        Control.record_rosbag topics' name' io pid' c
        = (Raise AttributeError,
           Control.add_log Control.Rosbag_already_recording c)
        ∧ Control.stop_record io pid' c = (Raise AttributeError, c)
        ∧ Control.recording
            (Control.add_log Control.Rosbag_already_recording c) = true
        ∧ Control.rosbag_proc
            (Control.add_log Control.Rosbag_already_recording c) = None.
Proof.
  cbv zeta. repeat split; try reflexivity.
  all: destruct_controller c; ctl_proj; subst; reflexivity.
Qed.

Lemma failed_start_wedges_recorder_witness :
  let c := (Control.record_rosbag ["/clock"] "bag" (Some OtherError) 1
              Control.init).2 in
  Control.record_rosbag ["/clock"] "bag" None 2 c
  = (Raise AttributeError, Control.add_log Control.Rosbag_already_recording c).
Proof.
  cbv zeta.
  destruct (failed_start_wedges_recorder ["/clock"] "bag" OtherError 1)
    as (_ & H1 & H2 & _ & _ & H).
  exact (proj1 (H _ H1 H2 ["/clock"] "bag" None 2%nat)).
Defined.

End PilotFacts.
